(** * LearnLynk: row-level security on leads, the create-task edge function
      and the "today" dashboard

    A shallow embedding of
    - [backend/rls_policies.sql]: the policies [leads_select_policy] and
      [leads_insert_policy];
    - [backend/edge-functions/create-task/index.ts]: the request handler;
    - [frontend/pages/dashboard/today.tsx]: [fetchTasks] and [markComplete];
    with the properties of the specification stated over it. *)

From Stdlib Require Import ZArith List String Bool Lia.
From Stdlib Require Import Sorting.Permutation Sorting.Sorted Sorting.Mergesort Orders.
Import ListNotations.
Open Scope string_scope.

(** Identifiers are uuids; they are kept in their canonical text form. *)
Definition uuid := string.

(* ================================================================= *)
(** ** SQL truth values *)

(** A policy expression is an SQL boolean: it can be NULL, and a row passes
    a policy only when the expression is TRUE. *)
Module Sql.

Inductive truth := True3 | False3 | Unknown.

Definition of_bool (b : bool) : truth := if b then True3 else False3.

Definition and3 (a b : truth) : truth :=
  match a, b with
  | False3, _ | _, False3 => False3
  | True3, True3 => True3
  | _, _ => Unknown
  end.

Definition or3 (a b : truth) : truth :=
  match a, b with
  | True3, _ | _, True3 => True3
  | False3, False3 => False3
  | _, _ => Unknown
  end.

(** [a = b] on nullable text or uuid columns: NULL on either side gives
    NULL. *)
Definition eq3 (a b : option string) : truth :=
  match a, b with
  | Some x, Some y => of_bool (String.eqb x y)
  | _, _ => Unknown
  end.

(** [a in (x1, ..., xn)] is [a = x1 or ... or a = xn]. *)
Fixpoint in3 (a : option string) (xs : list string) : truth :=
  match xs with
  | [] => False3
  | x :: xs' => or3 (eq3 a (Some x)) (in3 a xs')
  end.

Definition is_true (v : truth) : bool :=
  match v with True3 => true | _ => false end.

End Sql.

(* ================================================================= *)
(** ** Row-level security on [public.leads] *)

Module Rls.
Import Sql.

(** A row of [public.leads], with the columns the policies read.  The
    columns are nullable as far as the policies can tell. *)
Record lead := {
  tenant_id : option uuid;
  owner_id : option uuid;
  team_id : option uuid
}.

(** A row of the junction table [user_teams]. *)
Record user_team := {
  ut_user_id : option uuid;
  ut_team_id : option uuid
}.

(** The value of [(auth.jwt() ->> 'tenant_id')::uuid]: the claim is absent
    (NULL), or it is the text of a uuid, or the cast rejects it and the
    statement is aborted. *)
Inductive uuid_cast :=
| CastNull
| CastUuid (u : uuid)
| CastError.

(** What the policies read from the session:
    [auth.uid()], [auth.role()], [auth.jwt() ->> 'role'] and the tenant
    claim. *)
Record AuthCtx := {
  auth_uid : option uuid;
  auth_role : option string;
  jwt_role : option string;
  jwt_tenant_id : uuid_cast
}.

(** The session of a request that carries a token.  [auth.role()] and
    [auth.jwt() ->> 'role'] are two readings of one claim of the token, the
    claim [role]: in such a session they have the same value. *)
Definition session_of_token (uid : option uuid) (role : option string)
           (tenant : uuid_cast) : AuthCtx :=
  {| auth_uid := uid; auth_role := role; jwt_role := role; jwt_tenant_id := tenant |}.

(** [tenant_id = (auth.jwt() ->> 'tenant_id')::uuid]; [None] when the cast
    raises. *)
Definition tenant_check (ctx : AuthCtx) (row_tenant : option uuid) : option truth :=
  match jwt_tenant_id ctx with
  | CastError => None
  | CastNull => Some Unknown
  | CastUuid t => Some (eq3 row_tenant (Some t))
  end.

(** [exists (select 1 from user_teams ut
             where ut.user_id = auth.uid() and ut.team_id = leads.team_id)] *)
Definition team_exists (ctx : AuthCtx) (user_teams : list user_team) (r : lead) : truth :=
  of_bool (existsb (fun ut => is_true (and3 (eq3 (ut_user_id ut) (auth_uid ctx))
                                            (eq3 (ut_team_id ut) (team_id r))))
                   user_teams).

(** The [using] expression of ["leads_select_policy"]. *)
Definition leads_select_policy (ctx : AuthCtx) (user_teams : list user_team) (r : lead)
  : option truth :=
  match tenant_check ctx (tenant_id r) with
  | None => None
  | Some same_tenant =>
      Some (and3 same_tenant
              (or3 (or3 (eq3 (jwt_role ctx) (Some "admin"))
                        (eq3 (owner_id r) (auth_uid ctx)))
                   (team_exists ctx user_teams r)))
  end.

(** The [with check] expression of ["leads_insert_policy"]. *)
Definition leads_insert_policy (ctx : AuthCtx) (r : lead) : option truth :=
  match tenant_check ctx (tenant_id r) with
  | None => None
  | Some same_tenant =>
      Some (and3 (and3 (eq3 (auth_role ctx) (Some "authenticated")) same_tenant)
                 (in3 (jwt_role ctx) ["admin"; "counselor"]))
  end.

Inductive Decision := Permit | Deny.

(** A row is visible, or may be inserted, only when the policy expression
    evaluates to TRUE. *)
Definition decision_of (v : option truth) : Decision :=
  match v with
  | Some True3 => Permit
  | _ => Deny
  end.

Definition read_decision ctx user_teams r : Decision :=
  decision_of (leads_select_policy ctx user_teams r).

Definition insert_decision ctx r : Decision :=
  decision_of (leads_insert_policy ctx r).

(** The teams of a user, as [user_teams] records them. *)
Definition MembershipsOf (user_teams : list user_team) (user : uuid) : list uuid :=
  flat_map (fun ut =>
              match ut_user_id ut, ut_team_id ut with
              | Some u, Some tm => if String.eqb u user then [tm] else []
              | _, _ => []
              end) user_teams.

End Rls.

(* ================================================================= *)
(** ** The tables behind the edge function and the dashboard *)

Module Store.

(** A row of [applications]: the edge function selects [tenant_id] by
    [id]. *)
Record application := {
  app_id : uuid;
  app_tenant_id : uuid
}.

(** A row of [tasks].  [due_at] is a [timestamptz], kept as microseconds
    since the epoch. *)
Record task := {
  id : uuid;
  tenant_id : uuid;
  application_id : uuid;
  type : string;
  status : string;
  due_at : Z
}.

Record Db := {
  applications : list application;
  tasks : list task
}.

(** What the store answers beyond the rows themselves: whether it refuses a
    statement (it is unavailable, or a constraint of the schema rejects the
    row), in which case nothing is written and the client reports an error,
    and the id it generates for a new row.  A fault that strikes after a
    write has been committed, so that the client reports an error for a row
    that is stored, is outside this model. *)
Record Reply := {
  select_error : bool;
  write_error : bool;
  new_id : uuid
}.

(** The row [t] after [update tasks set status = s]. *)
Definition set_status (s : string) (t : task) : task :=
  {| id := id t;
     tenant_id := tenant_id t;
     application_id := application_id t;
     type := type t;
     status := s;
     due_at := due_at t |}.

(** The two statuses that the code writes. *)
Definition known_status (t : task) : Prop :=
  status t = "open" \/ status t = "completed".

(** A JavaScript time value (milliseconds) as a [timestamptz]. *)
Definition timestamptz_of_ms (ms : Z) : Z := (1000 * ms)%Z.

(** [rls_policies.sql] enables row level security on [public.leads] and
    declares policies for that table only: a query on [tasks] sees every
    row, whatever the session. *)
Definition visible_tasks (session : Rls.AuthCtx) (db : Db) : list task :=
  tasks db.

End Store.

(* ================================================================= *)
(** ** The edge function [create-task] *)

Module CreateTask.

(** [Partial<CreateTaskPayload>]: the three properties the handler reads
    from the body, as its checks see them.  [Some s] is a property that
    holds the string [s]; [None] is a property that is undefined, or that
    holds one of the other falsy values ([null], [false], [0]), which the
    presence test treats alike.  A truthy value that is not a string, which
    the declared type excludes, has no counterpart here. *)
Record Payload := {
  application_id : option string;
  task_type : option string;
  due_at : option string
}.

(** What [await req.json()] gives: it throws on a body that is not JSON;
    the JSON value [null] is returned, and the destructuring that follows
    throws on it; of any other JSON value the handler reads the three
    properties. *)
Inductive Body :=
| NotJson
| JsonNull
| Json (p : Payload).

(** A request.  [session] stands for the claims of the caller's bearer
    token, which travel in the headers. *)
Record Request := {
  method : string;
  session : Rls.AuthCtx;
  body : Body
}.

(** The JSON bodies the handler writes. *)
Inductive ResponseBody :=
| Error (error : string)
| Success (task_id : uuid).

Record Response := {
  resp_status : Z;
  resp_body : ResponseBody
}.

Definition VALID_TYPES : list string := ["call"; "email"; "review"].

(** [VALID_TYPES.includes(x)] *)
Definition includes (xs : list string) (x : string) : bool :=
  existsb (String.eqb x) xs.

(** [!x] fails for a string exactly when it is defined and not empty;
    [truthy x] is then that string. *)
Definition truthy (x : option string) : option string :=
  match x with
  | Some s => if String.eqb s "" then None else Some s
  | None => None
  end.

Definition invalid_type_message : string :=
  "Invalid task_type. Must be one of: " ++ String.concat ", " VALID_TYPES.

Section Handler.

(** The time value of [new Date(s)] in the runtime, [None] for NaN. *)
Variable Date_parse : string -> option Z.

(** The store's reading of a string as a [timestamptz] (microseconds),
    [None] when it refuses the input. *)
Variable timestamptz_in : string -> option Z.

(** [.from('applications').select('tenant_id').eq('id', id).single()]:
    an error unless exactly one row matches. *)
Definition select_application_tenant (r : Store.Reply) (db : Store.Db) (id : string)
  : option uuid :=
  if Store.select_error r then None
  else match filter (fun a => String.eqb (Store.app_id a) id) (Store.applications db) with
       | [a] => Some (Store.app_tenant_id a)
       | _ => None
       end.

(** [.from("tasks").insert({...}).select().single()]: the new row, with
    the id the store generated, or an error. *)
Definition insert_task (r : Store.Reply) (db : Store.Db)
           (tenant application task_type due : string)
  : option (Store.task * Store.Db) :=
  if Store.write_error r then None
  else if existsb (fun t => String.eqb (Store.id t) (Store.new_id r)) (Store.tasks db)
  then None
  else match timestamptz_in due with
       | None => None
       | Some d =>
           let t := {| Store.id := Store.new_id r;
                       Store.tenant_id := tenant;
                       Store.application_id := application;
                       Store.type := task_type;
                       Store.status := "open";
                       Store.due_at := d |} in
           Some (t, {| Store.applications := Store.applications db;
                       Store.tasks := Store.tasks db ++ [t] |})
       end.

Definition respond (status : Z) (b : ResponseBody) : Response :=
  {| resp_status := status; resp_body := b |}.

(** The handler passed to [serve]; [now] is the value of [new Date()]. *)
Definition handler (req : Request) (now : Z) (r : Store.Reply) (db : Store.Db)
  : Response * Store.Db :=
  if negb (String.eqb (method req) "POST") then
    (respond 405 (Error "Method not allowed"), db)
  else
    match body req with
    | NotJson => (respond 500 (Error "Internal server error"), db)
    | JsonNull => (respond 500 (Error "Internal server error"), db)
    | Json p =>
        match truthy (application_id p), truthy (task_type p), truthy (due_at p) with
        | Some application_id, Some task_type, Some due_at =>
            if negb (includes VALID_TYPES task_type) then
              (respond 400 (Error invalid_type_message), db)
            else
              let dueDate := Date_parse due_at in
              match dueDate with
              | Some due =>
                  if (due <=? now)%Z then
                    (respond 400 (Error "due_at must be a valid date in the future"), db)
                  else
                    match select_application_tenant r db application_id with
                    | None => (respond 400 (Error "Application not found"), db)
                    | Some tenant =>
                        match insert_task r db tenant application_id task_type due_at with
                        | None => (respond 500 (Error "Failed to create task"), db)
                        | Some (data, db') =>
                            (respond 200 (Success (Store.id data)), db')
                        end
                    end
              | None =>
                  (respond 400 (Error "due_at must be a valid date in the future"), db)
              end
        | _, _, _ => (respond 400 (Error "Missing required fields"), db)
        end
    end.

(** The ways the handler can answer, each with the conditions that
    lead to it, in the order of the code. *)
Inductive answers (req : Request) (now : Z) (r : Store.Reply) (db : Store.Db)
  : Response * Store.Db -> Prop :=
| MethodNotAllowed :
    method req <> "POST" ->
    answers req now r db (respond 405 (Error "Method not allowed"), db)
| BodyNotJson :
    method req = "POST" -> body req = NotJson ->
    answers req now r db (respond 500 (Error "Internal server error"), db)
| BodyNull :
    method req = "POST" -> body req = JsonNull ->
    answers req now r db (respond 500 (Error "Internal server error"), db)
| MissingFields p :
    method req = "POST" -> body req = Json p ->
    truthy (application_id p) = None \/ truthy (task_type p) = None
    \/ truthy (due_at p) = None ->
    answers req now r db (respond 400 (Error "Missing required fields"), db)
| InvalidType p a ty d :
    method req = "POST" -> body req = Json p ->
    truthy (application_id p) = Some a -> truthy (task_type p) = Some ty ->
    truthy (due_at p) = Some d ->
    ~ In ty VALID_TYPES ->
    answers req now r db (respond 400 (Error invalid_type_message), db)
| InvalidDate p a ty d :
    method req = "POST" -> body req = Json p ->
    truthy (application_id p) = Some a -> truthy (task_type p) = Some ty ->
    truthy (due_at p) = Some d ->
    In ty VALID_TYPES ->
    Date_parse d = None \/ (exists t, Date_parse d = Some t /\ (t <= now)%Z) ->
    answers req now r db
            (respond 400 (Error "due_at must be a valid date in the future"), db)
| ApplicationNotFound p a ty d t :
    method req = "POST" -> body req = Json p ->
    truthy (application_id p) = Some a -> truthy (task_type p) = Some ty ->
    truthy (due_at p) = Some d ->
    In ty VALID_TYPES ->
    Date_parse d = Some t -> (now < t)%Z ->
    select_application_tenant r db a = None ->
    answers req now r db (respond 400 (Error "Application not found"), db)
| InsertFailed p a ty d t tenant :
    method req = "POST" -> body req = Json p ->
    truthy (application_id p) = Some a -> truthy (task_type p) = Some ty ->
    truthy (due_at p) = Some d ->
    In ty VALID_TYPES ->
    Date_parse d = Some t -> (now < t)%Z ->
    select_application_tenant r db a = Some tenant ->
    insert_task r db tenant a ty d = None ->
    answers req now r db (respond 500 (Error "Failed to create task"), db)
| Created p a ty d t tenant data db' :
    method req = "POST" -> body req = Json p ->
    truthy (application_id p) = Some a -> truthy (task_type p) = Some ty ->
    truthy (due_at p) = Some d ->
    In ty VALID_TYPES ->
    Date_parse d = Some t -> (now < t)%Z ->
    select_application_tenant r db a = Some tenant ->
    insert_task r db tenant a ty d = Some (data, db') ->
    answers req now r db (respond 200 (Success (Store.id data)), db').

End Handler.

End CreateTask.


(* ================================================================= *)
(** ** The dashboard page [today.tsx] *)

Module Dashboard.

(** [.order("due_at", { ascending: true })] *)
Module DueOrder <: TotalLeBool.
Definition t := Store.task.
Definition leb (a b : t) : bool := (Store.due_at a <=? Store.due_at b)%Z.
Theorem leb_total : forall a b, leb a b = true \/ leb b a = true.
Proof. intros a b. unfold leb. rewrite !Z.leb_le. lia. Qed.
End DueOrder.

Module DueSort := Sort DueOrder.

(** The component's state: [tasks], [loading], [error]. *)
Record State := {
  tasks : list Store.task;
  loading : bool;
  error : option string
}.

(** What a call leaves behind: the component's state, the table, and the
    message of [alert], if it was called. *)
Record Outcome := {
  ui : State;
  db : Store.Db;
  alert : option string
}.

Definition msPerDay : Z := 86400000.

(** Time values are milliseconds since the epoch; [Day], [MakeTime],
    [MakeDate] and [TimeClip] are the abstract operations of ECMAScript. *)
Definition Day (t : Z) : Z := (t / msPerDay)%Z.

Definition MakeTime (hour min sec ms : Z) : Z :=
  (hour * 3600000 + min * 60000 + sec * 1000 + ms)%Z.

Definition MakeDate (day time : Z) : Z := (day * msPerDay + time)%Z.

Definition TimeClip (t : Z) : option Z :=
  if (Z.abs t <=? 8640000000000000)%Z then Some t else None.

Section Page.

(** The runtime's conversions between UTC and local time values. *)
Variable LocalTime : Z -> Z.
Variable UTC : Z -> Z.

(** [d.setHours(hour, min, sec, ms)] on a date with time value [tv]: the new
    time value, [None] for NaN. *)
Definition setHours (tv : Z) (hour min sec ms : Z) : option Z :=
  TimeClip (UTC (MakeDate (Day (LocalTime tv)) (MakeTime hour min sec ms))).

(** The two bounds computed by [fetchTasks]; the second [setHours] acts on
    the date the first one has already moved.  [toISOString] throws on an
    invalid date. *)
Definition startOfDay (now : Z) : option Z := setHours now 0 0 0 0.

Definition endOfDay (now : Z) : option Z :=
  match startOfDay now with
  | Some now' => setHours now' 23 59 59 999
  | None => None
  end.

(** The filters of the query, on one row. *)
Definition due_today (startOfDay endOfDay : Z) (t : Store.task) : bool :=
  negb (String.eqb (Store.status t) "completed")
  && (Store.timestamptz_of_ms startOfDay <=? Store.due_at t)%Z
  && (Store.due_at t <=? Store.timestamptz_of_ms endOfDay)%Z.

(** [supabase.from("tasks").select("*").neq(...).gte(...).lte(...).order(...)] *)
Definition query_tasks (session : Rls.AuthCtx) (r : Store.Reply) (d : Store.Db)
           (startOfDay endOfDay : Z) : option (list Store.task) :=
  if Store.select_error r then None
  else Some (DueSort.sort (filter (due_today startOfDay endOfDay)
                                  (Store.visible_tasks session d))).

Definition fetch_failed (st : State) : State :=
  {| tasks := tasks st; loading := false; error := Some "Failed to load tasks" |}.

Definition fetchTasks (session : Rls.AuthCtx) (now : Z) (r : Store.Reply) (d : Store.Db)
           (st : State) : State :=
  match startOfDay now, endOfDay now with
  | Some s, Some e =>
      match query_tasks session r d s e with
      | Some data => {| tasks := data; loading := false; error := None |}
      | None => fetch_failed st
      end
  | _, _ => fetch_failed st
  end.

(** [.from("tasks").update({ status: "completed" }).eq("id", id)] *)
Definition update_completed (id : uuid) (d : Store.Db) : Store.Db :=
  {| Store.applications := Store.applications d;
     Store.tasks :=
       map (fun t => if String.eqb (Store.id t) id then Store.set_status "completed" t else t)
           (Store.tasks d) |}.

(** [markComplete(id)]: [r] is the store's answer to the update; [now'] and
    [r'] are the clock and the store's answer for the [fetchTasks] that
    reverts the optimistic update after a failure. *)
Definition markComplete (session : Rls.AuthCtx) (id : uuid)
           (r : Store.Reply) (now' : Z) (r' : Store.Reply)
           (d : Store.Db) (st : State) : Outcome :=
  let st1 := {| tasks := filter (fun task => negb (String.eqb (Store.id task) id)) (tasks st);
                loading := loading st;
                error := error st |} in
  if Store.write_error r then
    {| ui := fetchTasks session now' r' d st1;
       db := d;
       alert := Some "Failed to update task" |}
  else
    {| ui := st1; db := update_completed id d; alert := None |}.

(** The component's state before the first fetch, and the effect run on
    mount: [useEffect(() => { fetchTasks(); }, [])]. *)
Definition initial : State := {| tasks := []; loading := true; error := None |}.

Definition mount (session : Rls.AuthCtx) (now : Z) (r : Store.Reply) (d : Store.Db) : State :=
  fetchTasks session now r d initial.

(** One [<tr>] of the table: its key, the text of its four cells, and the
    id its button passes to [markComplete]. *)
Record Row := {
  key : uuid;
  cells : list string;
  onClick : uuid
}.

(** What the component returns: the loading line, the error line, or the
    page with its heading, the note shown for an empty list and the table
    shown for a non-empty one. *)
Inductive View :=
| LoadingView (text : string)
| ErrorView (text : string)
| MainView (heading : string) (note : option string) (table : option (list string * list Row)).

(** [new Date(t.due_at).toLocaleTimeString()], in the browser's locale. *)
Variable toLocaleTimeString : Z -> string.

Definition render_row (t : Store.task) : Row :=
  {| key := Store.id t;
     cells := [Store.type t; Store.application_id t;
               toLocaleTimeString (Store.due_at t); Store.status t];
     onClick := Store.id t |}.

(** The [<main>] element: the note when [tasks.length === 0], the table
    when [tasks.length > 0]. *)
Definition main_view (st : State) : View :=
  MainView "Today's Tasks"
    (if (List.length (tasks st) =? 0)%nat then Some "No tasks due today 🎉" else None)
    (if (0 <? List.length (tasks st))%nat
     then Some (["Type"; "Application ID"; "Due At"; "Status"; "Action"],
                map render_row (tasks st))
     else None).

(** [if (loading) return ...; if (error) return ...; return <main>...]; an
    empty [error] string is falsy. *)
Definition render (st : State) : View :=
  if loading st then LoadingView "Loading tasks..."
  else match error st with
       | Some e => if negb (String.eqb e "") then ErrorView e else main_view st
       | None => main_view st
       end.

End Page.

(** The rows of the table in a view, none when no table is shown. *)
Definition view_rows (v : View) : list Row :=
  match v with
  | MainView _ _ (Some (_, rows)) => rows
  | _ => []
  end.

End Dashboard.


(* ================================================================= *)
(** ** Sample data for the examples *)

Module Samples.

(** Counselor [u1] of tenant [t1]. *)
Definition counselor1 : Rls.AuthCtx :=
  {| Rls.auth_uid := Some "u1"; Rls.auth_role := Some "authenticated";
     Rls.jwt_role := Some "counselor"; Rls.jwt_tenant_id := Rls.CastUuid "t1" |}.

(** Admin [u1] of tenant [t1]. *)
Definition admin1 : Rls.AuthCtx :=
  {| Rls.auth_uid := Some "u1"; Rls.auth_role := Some "authenticated";
     Rls.jwt_role := Some "admin"; Rls.jwt_tenant_id := Rls.CastUuid "t1" |}.

Definition teams1 : list Rls.user_team :=
  [{| Rls.ut_user_id := Some "u1"; Rls.ut_team_id := Some "teamA" |};
   {| Rls.ut_user_id := Some "u2"; Rls.ut_team_id := Some "teamB" |}].

(** A lead of tenant [t1] owned by [u2]. *)
Definition lead_of_team (team : option uuid) : Rls.lead :=
  {| Rls.tenant_id := Some "t1"; Rls.owner_id := Some "u2"; Rls.team_id := team |}.

(** A lead of tenant [t2], owned by [u1] and assigned to [teamA]. *)
Definition lead_t2 : Rls.lead :=
  {| Rls.tenant_id := Some "t2"; Rls.owner_id := Some "u1"; Rls.team_id := Some "teamA" |}.

(** A runtime that reads two date strings: the first instant of 2030 and
    one second later. *)
Definition Date_parse (s : string) : option Z :=
  if String.eqb s "2030-01-01T00:00:00.000Z" then Some 1893456000000%Z
  else if String.eqb s "2030-01-01T00:00:01.000Z" then Some 1893456001000%Z
  else None.

(** A store that reads the same two strings as timestamps and refuses
    every other string. *)
Definition timestamptz_in (s : string) : option Z :=
  option_map Store.timestamptz_of_ms (Date_parse s).

(** A runtime that reads, besides those two strings, the 30th of February
    2030 as a date: the second of March. *)
Definition Date_parse_lenient (s : string) : option Z :=
  if String.eqb s "2030-02-30T00:00:00Z" then Some 1898640000000%Z
  else Date_parse s.

(** The first instant of 2030. *)
Definition now : Z := 1893456000000.

Definition db0 : Store.Db :=
  {| Store.applications := [{| Store.app_id := "app-1"; Store.app_tenant_id := "t1" |};
                            {| Store.app_id := "app-2"; Store.app_tenant_id := "t2" |}];
     Store.tasks := [] |}.

Definition reply_ok : Store.Reply :=
  {| Store.select_error := false; Store.write_error := false; Store.new_id := "task-1" |}.

Definition payload (application task_type due : string) : CreateTask.Payload :=
  {| CreateTask.application_id := Some application;
     CreateTask.task_type := Some task_type;
     CreateTask.due_at := Some due |}.

Definition post (b : CreateTask.Body) : CreateTask.Request :=
  {| CreateTask.method := "POST"; CreateTask.session := counselor1; CreateTask.body := b |}.

(** The handler in the sample runtime. *)
Definition run (req : CreateTask.Request) (db : Store.Db) : CreateTask.Response * Store.Db :=
  CreateTask.handler Date_parse timestamptz_in req now
                     reply_ok db.

Definition task1 (tenant application : uuid) : Store.task :=
  {| Store.id := "task-1"; Store.tenant_id := tenant; Store.application_id := application;
     Store.type := "call"; Store.status := "open"; Store.due_at := 1893456001000000 |}.

Definition db_with (t : Store.task) : Store.Db :=
  {| Store.applications := Store.applications db0; Store.tasks := [t] |}.

(** A runtime whose local time is UTC. *)
Definition utc (t : Z) : Z := t.

(** Noon of the first day of 2030. *)
Definition noon : Z := 1893499200000.

Definition task_due (id tenant status : string) (due_ms : Z) : Store.task :=
  {| Store.id := id; Store.tenant_id := tenant; Store.application_id := "app-1";
     Store.type := "call"; Store.status := status;
     Store.due_at := Store.timestamptz_of_ms due_ms |}.

(** Tasks of the first day of 2030 (UTC): one of tenant [t1] at 10:00, one
    of tenant [t2] at 09:00, a completed one at 08:00, one at 23:59:59.999,
    and one at 00:00:00.000 of the next day. *)
Definition task_a := task_due "a" "t1" "open" 1893492000000.
Definition task_b := task_due "b" "t2" "open" 1893488400000.
Definition task_c := task_due "c" "t1" "completed" 1893484800000.
Definition task_d := task_due "d" "t1" "open" 1893542399999.
Definition task_e := task_due "e" "t1" "open" 1893542400000.

Definition dash_db : Store.Db :=
  {| Store.applications := []; Store.tasks := [task_a; task_b; task_c; task_d; task_e] |}.






Definition st0 : Dashboard.State :=
  {| Dashboard.tasks := []; Dashboard.loading := true; Dashboard.error := None |}.

(** A caller of tenant [t1] without a user id. *)
Definition anon1 : Rls.AuthCtx :=
  {| Rls.auth_uid := None; Rls.auth_role := Some "anon";
     Rls.jwt_role := Some "counselor"; Rls.jwt_tenant_id := Rls.CastUuid "t1" |}.

(** A lead of tenant [t1] without an owner, assigned to [teamA]. *)
Definition lead_unowned : Rls.lead :=
  {| Rls.tenant_id := Some "t1"; Rls.owner_id := None; Rls.team_id := Some "teamA" |}.

(** [teams1] with a second team for [u1] and a row without a team. *)
Definition teams2 : list Rls.user_team :=
  [{| Rls.ut_user_id := Some "u3"; Rls.ut_team_id := None |};
   {| Rls.ut_user_id := Some "u1"; Rls.ut_team_id := Some "teamC" |};
   {| Rls.ut_user_id := Some "u1"; Rls.ut_team_id := Some "teamA" |}].

(** A store that refuses every statement. *)
Definition reply_down : Store.Reply :=
  {| Store.select_error := true; Store.write_error := true; Store.new_id := "task-1" |}.

(** A store that answers queries and refuses writes. *)
Definition reply_readonly : Store.Reply :=
  {| Store.select_error := false; Store.write_error := true; Store.new_id := "task-1" |}.

(** A body without [due_at]. *)
Definition payload_no_due : CreateTask.Payload :=
  {| CreateTask.application_id := Some "app-1";
     CreateTask.task_type := Some "call";
     CreateTask.due_at := None |}.

(** A browser that prints a due time as the half of the day it falls in. *)
Definition toLocaleTimeString (due : Z) : string :=
  if (due <? 1893499200000000)%Z then "AM" else "PM".

End Samples.


(* ================================================================= *)
(** * Properties *)

(** ** Three-valued logic *)

Module SqlFacts.
Import Sql.

Lemma and3_true a b : and3 a b = True3 <-> a = True3 /\ b = True3.
Proof.
  destruct a, b; simpl; split; intros H; try discriminate; try tauto;
    destruct H; discriminate.
Qed.

Lemma or3_true a b : or3 a b = True3 <-> a = True3 \/ b = True3.
Proof.
  destruct a, b; simpl; split; intros H; try discriminate; try tauto;
    destruct H; discriminate.
Qed.

Lemma eq3_true a b : eq3 a b = True3 <-> exists x, a = Some x /\ b = Some x.
Proof.
  destruct a as [x|], b as [y|]; simpl; split; intros H;
    try discriminate; try (destruct H as (z & H1 & H2); discriminate).
  - destruct (String.eqb_spec x y) as [->|]; [eauto | discriminate].
  - destruct H as (z & H1 & H2). injection H1 as ->. injection H2 as ->.
    now rewrite String.eqb_refl.
Qed.

Lemma in3_true a xs : in3 a xs = True3 <-> exists x, a = Some x /\ In x xs.
Proof.
  induction xs as [|y ys IH]; simpl.
  - split; [discriminate | intros (x & _ & [])].
  - rewrite or3_true, eq3_true, IH. split.
    + intros [(x & Ha & Hx) | (x & Ha & Hx)].
      * injection Hx as ->. eauto.
      * eauto.
    + intros (x & Ha & [-> | Hx]); [left | right]; eauto.
Qed.

Lemma eq3_refl x : eq3 (Some x) (Some x) = True3.
Proof. apply eq3_true. eauto. Qed.

Lemma of_bool_true b : of_bool b = True3 <-> b = true.
Proof. destruct b; simpl; split; congruence. Qed.

Lemma is_true_iff v : is_true v = true <-> v = True3.
Proof. destruct v; simpl; split; congruence. Qed.

End SqlFacts.

(** ** The policies on leads *)

Module RlsProps.
Import Sql SqlFacts Rls Samples.

Lemma some_eq {A} (a b : A) : Some a = Some b <-> a = b.
Proof. split; congruence. Qed.

Lemma decision_permit v : decision_of v = Permit <-> v = Some True3.
Proof.
  destruct v as [[]|]; simpl; split; intros H; congruence.
Qed.

(** The tenant conjunct is TRUE exactly when both sides are the same,
    non-null tenant. *)
Lemma tenant_check_true ctx row_tenant v :
  tenant_check ctx row_tenant = Some v ->
  (v = True3 <-> exists t, row_tenant = Some t /\ jwt_tenant_id ctx = CastUuid t).
Proof.
  unfold tenant_check. destruct (jwt_tenant_id ctx) as [|t|]; intros H.
  - injection H as <-. split; [discriminate | intros (t & _ & Ht); discriminate].
  - injection H as <-. rewrite eq3_true. split.
    + intros (x & H1 & H2). injection H2 as <-. eauto.
    + intros (x & H1 & H2). injection H2 as <-. eauto.
  - discriminate.
Qed.

Lemma In_MembershipsOf user_teams u tm :
  In tm (MembershipsOf user_teams u) <->
  exists ut, In ut user_teams /\ ut_user_id ut = Some u /\ ut_team_id ut = Some tm.
Proof.
  unfold MembershipsOf. rewrite in_flat_map. split.
  - intros (ut & Hin & H). exists ut. split; [exact Hin|].
    destruct (ut_user_id ut) as [u'|]; [|contradiction].
    destruct (ut_team_id ut) as [tm'|]; [|contradiction].
    destruct (String.eqb_spec u' u) as [->|]; [|contradiction].
    destruct H as [->|[]]. auto.
  - intros (ut & Hin & Hu & Ht). exists ut. split; [exact Hin|].
    rewrite Hu, Ht, String.eqb_refl. now left.
Qed.

(** The subquery finds a row exactly when the caller has a user id, the
    lead has a team, and that team is one of the caller's. *)
Lemma team_exists_true ctx user_teams r :
  team_exists ctx user_teams r = True3 <->
  exists u tm, auth_uid ctx = Some u /\ team_id r = Some tm /\
               In tm (MembershipsOf user_teams u).
Proof.
  unfold team_exists. rewrite of_bool_true, existsb_exists. split.
  - intros (ut & Hin & H). rewrite is_true_iff, and3_true, !eq3_true in H.
    destruct H as ((u & Hu1 & Hu2) & (tm & Ht1 & Ht2)).
    exists u, tm. repeat split; auto. apply In_MembershipsOf. eauto.
  - intros (u & tm & Hu & Ht & Hin). apply In_MembershipsOf in Hin.
    destruct Hin as (ut & Hin & Hu' & Ht'). exists ut. split; [exact Hin|].
    rewrite is_true_iff, and3_true, !eq3_true. split; eauto.
Qed.

(** Both policies pass only for a lead of the caller's own tenant. *)
Lemma select_permit_same_tenant ctx user_teams r :
  read_decision ctx user_teams r = Permit ->
  exists t, tenant_id r = Some t /\ jwt_tenant_id ctx = CastUuid t.
Proof.
  unfold read_decision, leads_select_policy. rewrite decision_permit.
  destruct (tenant_check ctx (tenant_id r)) as [v|] eqn:E; [|discriminate].
  intros H. injection H as H. apply and3_true in H. destruct H as [H _].
  now apply (tenant_check_true _ _ _ E).
Qed.

Lemma insert_permit_same_tenant ctx r :
  insert_decision ctx r = Permit ->
  exists t, tenant_id r = Some t /\ jwt_tenant_id ctx = CastUuid t.
Proof.
  unfold insert_decision, leads_insert_policy. rewrite decision_permit.
  destruct (tenant_check ctx (tenant_id r)) as [v|] eqn:E; [|discriminate].
  intros H. injection H as H. rewrite !and3_true in H. destruct H as [[_ H] _].
  now apply (tenant_check_true _ _ _ E).
Qed.

Lemma not_permit d : d <> Permit -> d = Deny.
Proof. destruct d; congruence. Qed.

(** C2. Tenant isolation: when the tenant of the lead is not the tenant of
    the caller's token, the select policy and the insert policy both deny,
    whatever the role, the owner of the lead, and the caller's teams. *)
Theorem tenant_isolation ctx user_teams r :
  (forall t, jwt_tenant_id ctx = CastUuid t -> tenant_id r <> Some t) ->
  read_decision ctx user_teams r = Deny /\ insert_decision ctx r = Deny.
Proof.
  intros Hdiff. split; apply not_permit; intros H.
  - apply select_permit_same_tenant in H. destruct H as (t & Hr & Hc).
    exact (Hdiff t Hc Hr).
  - apply insert_permit_same_tenant in H. destruct H as (t & Hr & Hc).
    exact (Hdiff t Hc Hr).
Qed.

(** An admin of tenant [t1] who owns the lead and shares its team is still
    denied a lead of tenant [t2]. *)
Lemma tenant_isolation_witness :
  read_decision admin1 teams1 lead_t2 = Deny /\ insert_decision admin1 lead_t2 = Deny.
Proof.
  apply (tenant_isolation admin1 teams1 lead_t2).
  intros t H. simpl in H. injection H as <-. simpl. discriminate.
Defined.

(** C3. Within one tenant, a lead is readable exactly by an admin, by its
    owner, and by the members of its team; a counselor who is neither owner
    nor member is denied; a lead without a team is readable by admins and
    by its owner only. *)
Theorem read_permit_iff ctx user_teams r t u :
  jwt_tenant_id ctx = CastUuid t ->
  tenant_id r = Some t ->
  auth_uid ctx = Some u ->
  (read_decision ctx user_teams r = Permit <->
     jwt_role ctx = Some "admin"
     \/ owner_id r = Some u
     \/ exists tm, team_id r = Some tm /\ In tm (MembershipsOf user_teams u))
  /\ (jwt_role ctx = Some "counselor" ->
      owner_id r <> Some u ->
      (forall tm, team_id r = Some tm -> ~ In tm (MembershipsOf user_teams u)) ->
      read_decision ctx user_teams r = Deny)
  /\ (team_id r = None ->
      team_exists ctx user_teams r = False3
      /\ (read_decision ctx user_teams r = Permit <->
            jwt_role ctx = Some "admin" \/ owner_id r = Some u)).
Proof.
  intros Hc Hr Hu.
  assert (Hiff : read_decision ctx user_teams r = Permit <->
     jwt_role ctx = Some "admin"
     \/ owner_id r = Some u
     \/ exists tm, team_id r = Some tm /\ In tm (MembershipsOf user_teams u)).
  { unfold read_decision, leads_select_policy, tenant_check.
    rewrite decision_permit, Hc, Hr, Hu, eq3_refl.
    rewrite some_eq, and3_true, !or3_true, !eq3_true, team_exists_true.
    split.
    - intros [_ [[(x & H1 & H2) | (x & H1 & H2)] | (u' & tm & Hu' & Htm & Hin)]].
      + left. congruence.
      + right; left. congruence.
      + right; right. rewrite Hu in Hu'. injection Hu' as <-. eauto.
    - intros H. split; [reflexivity|].
      destruct H as [H | [H | (tm & Htm & Hin)]].
      + left; left. eauto.
      + left; right. eauto.
      + right. exists u, tm. auto. }
  split; [exact Hiff|]. split.
  - intros Hrole Hown Hteam. apply not_permit. intros H. apply Hiff in H.
    destruct H as [H | [H | (tm & Htm & Hin)]].
    + rewrite Hrole in H. discriminate.
    + contradiction.
    + exact (Hteam tm Htm Hin).
  - intros Hnull. split.
    + destruct (team_exists ctx user_teams r) eqn:E; try reflexivity.
      * apply team_exists_true in E. destruct E as (? & tm & _ & Htm & _). congruence.
      * unfold team_exists in E. destruct (existsb _ _); discriminate.
    + rewrite Hiff. split.
      * intros [H | [H | (tm & Htm & _)]]; auto. congruence.
      * intros [H | H]; auto.
Qed.

(** Counselor [u1] of team [teamA] reads another counselor's lead of
    [teamA]; a lead of [teamB], or one with no team, is denied. *)
Lemma read_permit_iff_witness :
  read_decision counselor1 teams1 (lead_of_team (Some "teamA")) = Permit
  /\ read_decision counselor1 teams1 (lead_of_team (Some "teamB")) = Deny
  /\ read_decision counselor1 teams1 (lead_of_team None) = Deny.
Proof.
  split; [|split].
  - destruct (read_permit_iff counselor1 teams1 (lead_of_team (Some "teamA")) "t1" "u1"
                eq_refl eq_refl eq_refl) as (Hiff & _ & _).
    apply Hiff. right; right. exists "teamA". split; [reflexivity | simpl; auto].
  - destruct (read_permit_iff counselor1 teams1 (lead_of_team (Some "teamB")) "t1" "u1"
                eq_refl eq_refl eq_refl) as (_ & Hneg & _).
    apply Hneg.
    + reflexivity.
    + simpl. discriminate.
    + simpl. intros tm H. injection H as <-. intros [H | []]. discriminate.
  - destruct (read_permit_iff counselor1 teams1 (lead_of_team None) "t1" "u1"
                eq_refl eq_refl eq_refl) as (_ & Hneg & _).
    apply Hneg.
    + reflexivity.
    + simpl. discriminate.
    + simpl. discriminate.
Defined.

(** The insert policy, read in any session: it is TRUE exactly when the row
    carries the session's tenant, [auth.role()] is authenticated and
    [auth.jwt() ->> 'role'] is admin or counselor; the owner and the team
    of the new row play no part. *)
Lemma insert_permit_iff ctx r :
  (insert_decision ctx r = Permit <->
     (exists t, tenant_id r = Some t /\ jwt_tenant_id ctx = CastUuid t)
     /\ auth_role ctx = Some "authenticated"
     /\ (jwt_role ctx = Some "admin" \/ jwt_role ctx = Some "counselor"))
  /\ (forall owner team,
        insert_decision ctx {| tenant_id := tenant_id r; owner_id := owner; team_id := team |}
        = insert_decision ctx r).
Proof.
  split; [|reflexivity].
  unfold insert_decision, leads_insert_policy. rewrite decision_permit.
  destruct (tenant_check ctx (tenant_id r)) as [v|] eqn:E.
  - pose proof (tenant_check_true _ _ _ E) as Ht.
    rewrite some_eq, !and3_true, eq3_true, in3_true, Ht. split.
    + intros (((x & Hx1 & Hx2) & Hsame) & (y & Hy & Hin)).
      split; [exact Hsame|]. split; [congruence|].
      simpl in Hin. destruct Hin as [<- | [<- | []]]; auto.
    + intros (Hsame & Hauth & Hrole). repeat split.
      * eauto.
      * exact Hsame.
      * destruct Hrole as [H | H]; [exists "admin" | exists "counselor"];
          simpl; auto.
  - split; [discriminate|]. intros ((t & _ & Hc) & _).
    unfold tenant_check in E. rewrite Hc in E. discriminate.
Qed.

(** C8. In the session of a token, [auth.role()] and
    [auth.jwt() ->> 'role'] are the same claim, which cannot be
    authenticated and admin or counselor at once: the insert policy denies
    every row, for every caller, authenticated admins and counselors of the
    row's tenant included. *)
Theorem insert_denied_for_every_token uid role tenant r :
  insert_decision (session_of_token uid role tenant) r = Deny.
Proof.
  apply not_permit. intros H.
  destruct (insert_permit_iff (session_of_token uid role tenant) r) as [Hiff _].
  apply Hiff in H. destruct H as (_ & Hauth & Hrole).
  simpl in Hauth, Hrole. rewrite Hauth in Hrole.
  destruct Hrole as [Hrole | Hrole]; discriminate.
Qed.

End RlsProps.

(** ** The edge function *)

Module CreateTaskProps.
Import CreateTask Samples.

Lemma truthy_some x s : truthy x = Some s <-> x = Some s /\ s <> "".
Proof.
  unfold truthy. destruct x as [s'|]; [|split; [discriminate | intros [H _]; discriminate]].
  destruct (String.eqb_spec s' "") as [->|Hne]; split.
  - discriminate.
  - intros [H Hs]. injection H as <-. contradiction.
  - intros H. injection H as <-. auto.
  - intros [H _]. exact H.
Qed.

Lemma includes_In xs x : includes xs x = true <-> In x xs.
Proof.
  unfold includes. rewrite existsb_exists. split.
  - intros (y & Hin & Heq). apply String.eqb_eq in Heq. now subst.
  - intros Hin. exists x. split; [exact Hin | apply String.eqb_refl].
Qed.

Section Handler.

Variable Date_parse : string -> option Z.
Variable timestamptz_in : string -> option Z.

Local Abbreviation handler := (CreateTask.handler Date_parse timestamptz_in).
Local Abbreviation insert_task := (CreateTask.insert_task timestamptz_in).

(** A row that the store accepts is appended to [tasks], open, with the
    tenant it was given and the generated id. *)
Lemma insert_task_some r db tenant app ty due t db' :
  insert_task r db tenant app ty due = Some (t, db') ->
  Store.tenant_id t = tenant /\ Store.application_id t = app /\ Store.type t = ty
  /\ Store.status t = "open" /\ Store.id t = Store.new_id r
  /\ Store.tasks db' = (Store.tasks db ++ [t])%list
  /\ Store.applications db' = Store.applications db.
Proof.
  unfold CreateTask.insert_task.
  destruct (Store.write_error r); [discriminate|].
  destruct (existsb _ _); [discriminate|].
  destruct (timestamptz_in due); [|discriminate].
  intros H. injection H as <- <-. simpl. repeat split; reflexivity.
Qed.

(** The handler on a POST request whose three fields are present. *)
Lemma handler_present req now r db p a ty d :
  method req = "POST" ->
  body req = Json p ->
  truthy (application_id p) = Some a ->
  truthy (task_type p) = Some ty ->
  truthy (due_at p) = Some d ->
  handler req now r db =
    if negb (includes VALID_TYPES ty) then (respond 400 (Error invalid_type_message), db)
    else match Date_parse d with
         | Some due =>
             if (due <=? now)%Z
             then (respond 400 (Error "due_at must be a valid date in the future"), db)
             else match select_application_tenant r db a with
                  | None => (respond 400 (Error "Application not found"), db)
                  | Some tenant =>
                      match insert_task r db tenant a ty d with
                      | None => (respond 500 (Error "Failed to create task"), db)
                      | Some (data, db') => (respond 200 (Success (Store.id data)), db')
                      end
                  end
         | None => (respond 400 (Error "due_at must be a valid date in the future"), db)
         end.
Proof.
  intros Hm Hb Ha Ht Hd. unfold CreateTask.handler.
  rewrite Hm, Hb, Ha, Ht, Hd. reflexivity.
Qed.

(** The handler on a POST request with a field that is absent or empty. *)
Lemma handler_missing req now r db p :
  method req = "POST" ->
  body req = Json p ->
  truthy (application_id p) = None \/ truthy (task_type p) = None
  \/ truthy (due_at p) = None ->
  handler req now r db = (respond 400 (Error "Missing required fields"), db).
Proof.
  intros Hm Hb H. unfold CreateTask.handler. rewrite Hm, Hb. simpl.
  destruct (truthy (application_id p)), (truthy (task_type p)), (truthy (due_at p));
    try reflexivity.
  destruct H as [H | [H | H]]; discriminate.
Qed.

Ltac by_presence p Ea Et Ed :=
  destruct (truthy (application_id p)) as [?a|] eqn:Ea;
  destruct (truthy (task_type p)) as [?ty|] eqn:Et;
  destruct (truthy (due_at p)) as [?d|] eqn:Ed.

(** C9. A POST request whose body is not JSON is answered 500 with the
    generic message, not 400. *)
Theorem not_json_internal_error req now r db :
  method req = "POST" ->
  body req = NotJson ->
  handler req now r db = (respond 500 (Error "Internal server error"), db)
  /\ resp_status (fst (handler req now r db)) <> 400%Z.
Proof.
  intros Hm Hb. unfold CreateTask.handler. rewrite Hm, Hb. simpl.
  split; [reflexivity | discriminate].
Qed.

(** C10. A request in which [application_id], [task_type] or [due_at] is the
    empty string is answered 400 "Missing required fields", whatever the
    other fields hold: the type and the date are not looked at. *)
Theorem empty_field_missing req now r db p :
  method req = "POST" ->
  body req = Json p ->
  application_id p = Some "" \/ task_type p = Some "" \/ due_at p = Some "" ->
  handler req now r db = (respond 400 (Error "Missing required fields"), db).
Proof.
  intros Hm Hb H. apply (handler_missing req now r db p Hm Hb).
  destruct H as [H | [H | H]]; rewrite H; auto.
Qed.

(** C7. A [task_type] outside call, email, review is answered 400 and
    nothing is written; when the three fields are present, the type is
    refused exactly when it is outside that set. *)
Theorem task_type_closed_set req now r db p :
  method req = "POST" ->
  body req = Json p ->
  (forall ty, task_type p = Some ty -> ~ In ty ["call"; "email"; "review"] ->
     resp_status (fst (handler req now r db)) = 400%Z
     /\ snd (handler req now r db) = db)
  /\ (forall a ty d,
        truthy (application_id p) = Some a ->
        truthy (task_type p) = Some ty ->
        truthy (due_at p) = Some d ->
        (handler req now r db =
           (respond 400 (Error "Invalid task_type. Must be one of: call, email, review"), db)
         <-> ~ In ty ["call"; "email"; "review"])).
Proof.
  intros Hm Hb. split.
  - intros ty Hty Hout. by_presence p Ea Et Ed;
      try (rewrite (handler_missing req now r db p Hm Hb) by auto; split; reflexivity).
    rewrite (handler_present req now r db p _ _ _ Hm Hb Ea Et Ed).
    apply truthy_some in Et. destruct Et as [Et _]. rewrite Hty in Et. injection Et as <-.
    destruct (includes VALID_TYPES ty) eqn:Ein.
    + apply includes_In in Ein. contradiction.
    + split; reflexivity.
  - intros a ty d Ea Et Ed.
    rewrite (handler_present req now r db p _ _ _ Hm Hb Ea Et Ed).
    destruct (includes VALID_TYPES ty) eqn:Ein; cbn [negb].
    + apply includes_In in Ein. split; [|contradiction].
      destruct (Date_parse d) as [due|]; [|discriminate].
      destruct (due <=? now)%Z; [discriminate|].
      destruct (select_application_tenant r db a); [|discriminate].
      destruct (insert_task r db _ a ty d) as [[data db']|]; discriminate.
    + split; [|reflexivity]. intros _ Hin. apply includes_In in Hin.
      unfold VALID_TYPES in Ein. congruence.
Qed.

(** The date check.  A [due_at] that the runtime cannot read as a date, or
    that is not after [now], is answered 400 and nothing is written; with
    the fields present and the type valid, the date is refused exactly in
    those cases, equality with [now] included; a later date goes through,
    and the task is created when the application resolves and the store
    takes the row. *)
Lemma due_at_strict_future req now r db p :
  method req = "POST" ->
  body req = Json p ->
  (forall d, due_at p = Some d ->
     (Date_parse d = None \/ exists t, Date_parse d = Some t /\ (t <= now)%Z) ->
     resp_status (fst (handler req now r db)) = 400%Z
     /\ snd (handler req now r db) = db)
  /\ (forall a ty d,
        truthy (application_id p) = Some a ->
        truthy (task_type p) = Some ty ->
        truthy (due_at p) = Some d ->
        In ty VALID_TYPES ->
        (handler req now r db =
           (respond 400 (Error "due_at must be a valid date in the future"), db)
         <-> (Date_parse d = None \/ exists t, Date_parse d = Some t /\ (t <= now)%Z))
        /\ (forall t tenant data db',
              Date_parse d = Some t -> (now < t)%Z ->
              select_application_tenant r db a = Some tenant ->
              insert_task r db tenant a ty d = Some (data, db') ->
              handler req now r db = (respond 200 (Success (Store.id data)), db'))).
Proof.
  intros Hm Hb. split.
  - intros d Hd Hbad. by_presence p Ea Et Ed;
      try (rewrite (handler_missing req now r db p Hm Hb) by auto; split; reflexivity).
    rewrite (handler_present req now r db p _ _ _ Hm Hb Ea Et Ed).
    apply truthy_some in Ed. destruct Ed as [Ed _]. rewrite Hd in Ed. injection Ed as <-.
    destruct (negb (includes VALID_TYPES ty)); [split; reflexivity|].
    destruct Hbad as [-> | (t & -> & Hle)]; [split; reflexivity|].
    apply Z.leb_le in Hle. rewrite Hle. split; reflexivity.
  - intros a ty d Ea Et Ed Hin.
    rewrite (handler_present req now r db p _ _ _ Hm Hb Ea Et Ed).
    apply includes_In in Hin. rewrite Hin. cbn [negb]. split.
    + destruct (Date_parse d) as [due|]; [|split; auto].
      destruct (Z.leb_spec due now) as [Hle | Hgt].
      * split; [|reflexivity]. intros _. right. eauto.
      * split.
        -- destruct (select_application_tenant r db a); [|discriminate].
           destruct (insert_task r db _ a ty d) as [[data db']|]; discriminate.
        -- intros [H | (t & H & Hle)]; [discriminate|]. injection H as <-. lia.
    + intros t tenant data db' -> Hlt -> ->.
      destruct (Z.leb_spec t now); [lia | reflexivity].
Qed.

(** C1 (as the handler has it). The handler does not look at the caller:
    the answer is the same for every session.  When it answers 200, one
    open task has been appended, and its tenant is the one selected from
    the application named in the request. *)
Theorem create_task_tenant_from_application req now r db resp db' :
  handler req now r db = (resp, db') ->
  (forall session',
     handler {| method := method req; session := session'; body := body req |} now r db
     = (resp, db'))
  /\ (resp_status resp = 200%Z ->
      exists p a task,
        body req = Json p /\ truthy (application_id p) = Some a
        /\ select_application_tenant r db a = Some (Store.tenant_id task)
        /\ Store.application_id task = a
        /\ Store.status task = "open"
        /\ Store.tasks db' = (Store.tasks db ++ [task])%list
        /\ Store.applications db' = Store.applications db
        /\ resp_body resp = Success (Store.id task)).
Proof.
  intros H. split; [intros session'; exact H|].
  - intros H200. revert H. unfold CreateTask.handler.
    destruct (negb (method req =? "POST"));
      [intros H; injection H as <- <-; discriminate|].
    destruct (body req) as [| |p];
      [intros H; injection H as <- <-; discriminate
      |intros H; injection H as <- <-; discriminate|].
    by_presence p Ea Et Ed; try (intros H; injection H as <- <-; discriminate).
    destruct (negb (includes VALID_TYPES ty));
      [intros H; injection H as <- <-; discriminate|].
    destruct (Date_parse d) as [due|]; [|intros H; injection H as <- <-; discriminate].
    destruct (due <=? now)%Z; [intros H; injection H as <- <-; discriminate|].
    destruct (select_application_tenant r db a) as [tenant|] eqn:Esel;
      [|intros H; injection H as <- <-; discriminate].
    destruct (insert_task r db tenant a ty d) as [[data db1]|] eqn:Eins;
      [|intros H; injection H as <- <-; discriminate].
    intros H. injection H as <- <-.
    apply insert_task_some in Eins.
    destruct Eins as (Hten & Happ & _ & Hst & _ & Htasks & Happs).
    exists p, a, data. rewrite Hten. repeat split; auto.
Qed.

End Handler.

Lemma not_json_internal_error_witness :
  run (post NotJson) db0
  = (respond 500 (Error "Internal server error"), db0).
Proof.
  apply (not_json_internal_error Date_parse timestamptz_in
           (post NotJson) now reply_ok db0);
    reflexivity.
Defined.

(** An empty [task_type] is reported as a missing field, though it is not
    one of the valid types either. *)
Lemma empty_field_missing_witness :
  run (post (Json (payload "app-1" "" "2030-01-01T00:00:01.000Z")))
      db0
  = (respond 400 (Error "Missing required fields"), db0).
Proof.
  apply (empty_field_missing Date_parse timestamptz_in
           (post (Json (payload "app-1" "" "2030-01-01T00:00:01.000Z")))
           now reply_ok db0
           (payload "app-1" "" "2030-01-01T00:00:01.000Z")).
  - reflexivity.
  - reflexivity.
  - right; left. reflexivity.
Defined.

(** [task_type = "sms"] is refused. *)
Lemma task_type_closed_set_witness :
  run (post (Json (payload "app-1" "sms" "2030-01-01T00:00:01.000Z")))
      db0
  = (respond 400 (Error "Invalid task_type. Must be one of: call, email, review"),
     db0).
Proof.
  destruct (task_type_closed_set Date_parse timestamptz_in
              (post (Json (payload "app-1" "sms" "2030-01-01T00:00:01.000Z")))
              now reply_ok db0
              (payload "app-1" "sms" "2030-01-01T00:00:01.000Z")
              eq_refl eq_refl) as [_ H].
  apply (H "app-1" "sms" "2030-01-01T00:00:01.000Z" eq_refl eq_refl eq_refl).
  simpl. intros [H1 | [H1 | [H1 | []]]]; discriminate.
Defined.

(** A [due_at] equal to [now] is refused; one second later the task is
    created. *)
Lemma due_at_strict_future_witness :
  run (post (Json (payload "app-1" "call" "2030-01-01T00:00:00.000Z")))
      db0
  = (respond 400 (Error "due_at must be a valid date in the future"), db0)
  /\ run (post (Json (payload "app-1" "call" "2030-01-01T00:00:01.000Z")))
         db0
     = (respond 200 (Success "task-1"), db_with (task1 "t1" "app-1")).
Proof.
  split.
  - destruct (due_at_strict_future Date_parse timestamptz_in
                (post (Json (payload "app-1" "call" "2030-01-01T00:00:00.000Z")))
                now reply_ok db0
                (payload "app-1" "call" "2030-01-01T00:00:00.000Z")
                eq_refl eq_refl) as [_ H].
    destruct (H "app-1" "call" "2030-01-01T00:00:00.000Z" eq_refl eq_refl eq_refl) as [Hiff _].
    + simpl. auto.
    + apply Hiff. right. exists now. split; [reflexivity | unfold now; lia].
  - destruct (due_at_strict_future Date_parse timestamptz_in
                (post (Json (payload "app-1" "call" "2030-01-01T00:00:01.000Z")))
                now reply_ok db0
                (payload "app-1" "call" "2030-01-01T00:00:01.000Z")
                eq_refl eq_refl) as [_ H].
    destruct (H "app-1" "call" "2030-01-01T00:00:01.000Z" eq_refl eq_refl eq_refl) as [_ Hok].
    + simpl. auto.
    + apply (Hok 1893456001000%Z "t1" (task1 "t1" "app-1") (db_with (task1 "t1" "app-1"))).
      * reflexivity.
      * unfold now. lia.
      * reflexivity.
      * reflexivity.
Defined.

(** C6. A [due_at] that is no timestamp and yet passes the date check: the
    runtime reads the 30th of February 2030 as a date after [now], the
    store refuses the string, and the answer is 500 "Failed to create
    task", not the 400 of the date check, and no task is created. *)
Theorem due_at_30_february_is_500 :
  Date_parse_lenient "2030-02-30T00:00:00Z" = Some 1898640000000%Z
  /\ (now < 1898640000000)%Z
  /\ timestamptz_in "2030-02-30T00:00:00Z" = None
  /\ CreateTask.handler Date_parse_lenient timestamptz_in
       (post (Json (payload "app-1" "call" "2030-02-30T00:00:00Z"))) now reply_ok db0
     = (respond 500 (Error "Failed to create task"), db0).
Proof. repeat split. Qed.

(** C1, as stated, fails: counselor [u1] of tenant [t1] names the
    application [app-2] of tenant [t2]; the handler answers 200 and a task
    of tenant [t2] is in the table. *)
Lemma create_task_across_tenants :
  let req := post (Json (payload "app-2" "call" "2030-01-01T00:00:01.000Z")) in
  Rls.jwt_tenant_id (session req) = Rls.CastUuid "t1"
  /\ select_application_tenant reply_ok db0 "app-2" = Some "t2"
  /\ run req db0 = (respond 200 (Success "task-1"), db_with (task1 "t2" "app-2"))
  /\ Store.tasks (snd (run req db0)) <> Store.tasks db0.
Proof. repeat split. discriminate. Qed.

(** The task created for [app-1] carries the tenant of [app-1]. *)
Lemma create_task_tenant_from_application_witness :
  exists task,
    select_application_tenant reply_ok db0 "app-1"
    = Some (Store.tenant_id task)
    /\ Store.tasks (db_with (task1 "t1" "app-1")) = [task].
Proof.
  destruct (create_task_tenant_from_application Date_parse timestamptz_in
              (post (Json (payload "app-1" "call" "2030-01-01T00:00:01.000Z")))
              now reply_ok db0
              (respond 200 (Success "task-1")) (db_with (task1 "t1" "app-1")) eq_refl)
    as (_ & H).
  destruct (H eq_refl) as (p & a & task & Hb & Ha & Hsel & _ & _ & Htasks & _).
  exists task. injection Hb as <-. simpl in Ha. injection Ha as <-.
  split; [exact Hsel | exact Htasks].
Defined.

End CreateTaskProps.

(** ** The dashboard *)

Module DashboardProps.
Import Dashboard Samples.

Definition due_le (a b : Store.task) : Prop := (Store.due_at a <= Store.due_at b)%Z.

Lemma sort_by_due l :
  Permutation l (DueSort.sort l) /\ StronglySorted due_le (DueSort.sort l).
Proof.
  split; [apply DueSort.Permuted_sort|].
  assert (Htrans : Relations_1.Transitive (fun a b => is_true (DueOrder.leb a b))).
  { intros a b c. unfold DueOrder.leb, is_true. rewrite !Z.leb_le. lia. }
  pose proof (DueSort.StronglySorted_sort l Htrans) as H.
  induction H as [|a l' Hs IH Hall]; constructor; auto.
  eapply Forall_impl; [|exact Hall].
  intros b Hb. unfold due_le. now apply Z.leb_le.
Qed.

Lemma due_today_iff s e t :
  due_today s e t = true <->
  Store.status t <> "completed"
  /\ (Store.timestamptz_of_ms s <= Store.due_at t <= Store.timestamptz_of_ms e)%Z.
Proof.
  unfold due_today. rewrite !andb_true_iff, negb_true_iff, !Z.leb_le, String.eqb_neq.
  tauto.
Qed.

Lemma update_completed_idem id d :
  update_completed id (update_completed id d) = update_completed id d.
Proof.
  unfold update_completed. simpl. f_equal. rewrite map_map.
  apply map_ext. intros t.
  destruct (String.eqb (Store.id t) id) eqn:E.
  - simpl. rewrite E. reflexivity.
  - rewrite E. reflexivity.
Qed.

Lemma filter_idem {A} (f : A -> bool) l : filter f (filter f l) = filter f l.
Proof.
  induction l as [|x l IH]; simpl; [reflexivity|].
  destruct (f x) eqn:E; simpl; [rewrite E|]; congruence.
Qed.

Section Page.

Variable LocalTime : Z -> Z.
Variable UTC : Z -> Z.

Local Abbreviation startOfDay := (Dashboard.startOfDay LocalTime UTC).
Local Abbreviation endOfDay := (Dashboard.endOfDay LocalTime UTC).
Local Abbreviation fetchTasks := (Dashboard.fetchTasks LocalTime UTC).
Local Abbreviation markComplete := (Dashboard.markComplete LocalTime UTC).

(** In a zone at a fixed offset from UTC, the bounds are the first and the
    last millisecond of the local day of [now]. *)
Lemma bounds_fixed_offset off now s e :
  (forall t, LocalTime t = t + off)%Z ->
  (forall t, UTC t = t - off)%Z ->
  startOfDay now = Some s ->
  endOfDay now = Some e ->
  s = UTC (MakeDate (Day (LocalTime now)) (MakeTime 0 0 0 0))
  /\ e = UTC (MakeDate (Day (LocalTime now)) (MakeTime 23 59 59 999))
  /\ (e + 1)%Z = UTC (MakeDate (Day (LocalTime now) + 1) (MakeTime 0 0 0 0)).
Proof.
  intros HL HU Hs He. unfold Dashboard.endOfDay in He. rewrite Hs in He.
  unfold Dashboard.startOfDay, setHours, TimeClip in Hs, He.
  destruct (Z.abs _ <=? _)%Z in Hs; [|discriminate]. injection Hs as <-.
  destruct (Z.abs _ <=? _)%Z in He; [|discriminate]. injection He as <-.
  split; [reflexivity|].
  assert (Hday : Day (LocalTime (UTC (MakeDate (Day (LocalTime now)) (MakeTime 0 0 0 0))))
                 = Day (LocalTime now)).
  { rewrite HL, HU. generalize (LocalTime now). intros x.
    unfold MakeDate, MakeTime, Day, msPerDay.
    replace (x / 86400000 * 86400000 + (0 * 3600000 + 0 * 60000 + 0 * 1000 + 0)
             - off + off)%Z
      with (x / 86400000 * 86400000)%Z by lia.
    apply Z.div_mul. lia. }
  rewrite Hday. split; [reflexivity|].
  rewrite !HU. unfold MakeDate, MakeTime, msPerDay. lia.
Qed.


(** C4. When the store takes both updates, two calls of [markComplete] on
    the same id raise no alert; every row with that id ends completed, the
    other columns and the other rows being as before; and the second call
    changes neither the table nor the list on the page. *)
Theorem markComplete_twice session id r1 now1 r1' r2 now2 r2' d st :
  Store.write_error r1 = false ->
  Store.write_error r2 = false ->
  let o1 := markComplete session id r1 now1 r1' d st in
  let o2 := markComplete session id r2 now2 r2' (db o1) (ui o1) in
  alert o1 = None /\ alert o2 = None
  /\ Store.tasks (db o2)
     = map (fun t => if String.eqb (Store.id t) id
                     then Store.set_status "completed" t else t) (Store.tasks d)
  /\ (forall t, In t (Store.tasks (db o2)) -> Store.id t = id ->
                Store.status t = "completed")
  /\ db o2 = db o1
  /\ ui o2 = ui o1.
Proof.
  intros H1 H2 o1 o2. subst o2 o1. unfold Dashboard.markComplete.
  rewrite H1. cbn [db ui alert]. rewrite H2. cbn [db ui alert tasks loading error].
  rewrite update_completed_idem, filter_idem.
  repeat split.
  intros t Hin Hid. unfold update_completed in Hin. cbn [Store.tasks] in Hin.
  apply in_map_iff in Hin. destruct Hin as (t0 & Ht0 & _).
  destruct (String.eqb_spec (Store.id t0) id) as [E | E].
  - subst t. reflexivity.
  - subst t. contradiction.
Qed.

End Page.



(** Completing [task_a] twice. *)
Lemma markComplete_twice_witness :
  let o1 := Dashboard.markComplete utc utc counselor1 "a" reply_ok noon reply_ok dash_db st0 in
  let o2 := Dashboard.markComplete utc utc counselor1 "a" reply_ok noon reply_ok (db o1) (ui o1) in
  alert o1 = None /\ alert o2 = None
  /\ In (Store.set_status "completed" task_a) (Store.tasks (db o2))
  /\ db o2 = db o1 /\ ui o2 = ui o1.
Proof.
  intros o1 o2.
  destruct (markComplete_twice utc utc counselor1 "a" reply_ok noon reply_ok
              reply_ok noon reply_ok dash_db st0 eq_refl eq_refl)
    as (Ha1 & Ha2 & Htasks & _ & Hdb & Hui).
  fold o1 in Ha1, Ha2, Htasks, Hdb, Hui. fold o2 in Ha2, Htasks, Hdb, Hui.
  repeat split; auto.
  rewrite Htasks. simpl. auto.
Defined.

End DashboardProps.



(* ================================================================= *)
(** * Further properties *)

(** ** The policies on leads *)

Module RlsExtra.
Import Sql SqlFacts Rls RlsProps Samples.

(** The select policy is TRUE exactly for a lead of the caller's tenant that
    the caller reads as admin, as owner or as member of its team. *)
Lemma select_true_iff ctx user_teams r :
  leads_select_policy ctx user_teams r = Some True3 <->
  (exists t, tenant_id r = Some t /\ jwt_tenant_id ctx = CastUuid t)
  /\ (jwt_role ctx = Some "admin"
      \/ (exists u, auth_uid ctx = Some u /\ owner_id r = Some u)
      \/ team_exists ctx user_teams r = True3).
Proof.
  unfold leads_select_policy.
  destruct (tenant_check ctx (tenant_id r)) as [v|] eqn:E.
  - rewrite some_eq, and3_true, !or3_true, !eq3_true, (tenant_check_true _ _ _ E).
    split.
    + intros [Hs [[(x & H1 & H2) | (x & H1 & H2)] | H]]; split; auto.
      * left. congruence.
      * right; left. eauto.
    + intros [Hs [H | [(u & H1 & H2) | H]]]; split; auto.
      * left; left. eauto.
      * left; right. eauto.
  - split; [discriminate|]. intros [(t & _ & Hc) _].
    unfold tenant_check in E. rewrite Hc in E. discriminate.
Qed.

(** X1. The select policy, with no assumption on the session or the row: a
    lead is readable exactly when it carries the caller's tenant and the
    caller is admin, or has a user id that owns the lead or belongs to the
    lead's team. *)
Theorem read_permit_general ctx user_teams r :
  read_decision ctx user_teams r = Permit <->
  (exists t, tenant_id r = Some t /\ jwt_tenant_id ctx = CastUuid t)
  /\ (jwt_role ctx = Some "admin"
      \/ exists u, auth_uid ctx = Some u
                   /\ (owner_id r = Some u
                       \/ exists tm, team_id r = Some tm
                                     /\ In tm (MembershipsOf user_teams u))).
Proof.
  unfold read_decision. rewrite decision_permit, select_true_iff, team_exists_true.
  split; intros [Hs H]; (split; [exact Hs|]).
  - destruct H as [H | [(u & Hu & Ho) | (u & tm & Hu & Ht & Hin)]]; eauto 8.
  - destruct H as [H | (u & Hu & [Ho | (tm & Ht & Hin)])]; eauto 8.
Qed.

(** X2. NULL never matches: a lead without owner is readable only by admins
    and by members of its team, and a caller without user id reads only as
    admin, even when the lead has no owner either. *)
Theorem null_owner_or_uid ctx user_teams r :
  (owner_id r = None ->
   (read_decision ctx user_teams r = Permit <->
      (exists t, tenant_id r = Some t /\ jwt_tenant_id ctx = CastUuid t)
      /\ (jwt_role ctx = Some "admin"
          \/ exists u tm, auth_uid ctx = Some u /\ team_id r = Some tm
                          /\ In tm (MembershipsOf user_teams u))))
  /\ (auth_uid ctx = None ->
      (read_decision ctx user_teams r = Permit <->
         (exists t, tenant_id r = Some t /\ jwt_tenant_id ctx = CastUuid t)
         /\ jwt_role ctx = Some "admin")).
Proof.
  unfold read_decision. rewrite decision_permit, select_true_iff, team_exists_true.
  split.
  - intros Ho. split; intros [Hs H]; (split; [exact Hs|]).
    + destruct H as [H | [(u & _ & Hu) | H]]; auto. congruence.
    + destruct H as [H | H]; auto.
  - intros Hu. split; intros [Hs H]; (split; [exact Hs|]).
    + destruct H as [H | [(u & Hu' & _) | (u & tm & Hu' & _)]]; auto; congruence.
    + auto.
Qed.

(** The unowned lead of [teamA] is read by member [u1] and not by the
    caller without user id. *)
Lemma null_owner_or_uid_witness :
  read_decision counselor1 teams1 lead_unowned = Permit
  /\ read_decision anon1 teams1 lead_unowned = Deny.
Proof.
  split.
  - destruct (null_owner_or_uid counselor1 teams1 lead_unowned) as [H _].
    apply (H eq_refl). split.
    + exists "t1". split; reflexivity.
    + right. exists "u1", "teamA". simpl. auto.
  - destruct (null_owner_or_uid anon1 teams1 lead_unowned) as [_ H].
    apply not_permit. intros Hp. apply (H eq_refl) in Hp.
    destruct Hp as [_ Hp]. discriminate.
Defined.

(** X3. [user_teams] counts only through the teams of the caller: more
    memberships never take a lead away, and two tables that give the caller
    the same teams give the same decision on every lead. *)
Theorem memberships_decide_read ctx user_teams user_teams' r u :
  auth_uid ctx = Some u ->
  ((forall tm, In tm (MembershipsOf user_teams u) -> In tm (MembershipsOf user_teams' u)) ->
   read_decision ctx user_teams r = Permit ->
   read_decision ctx user_teams' r = Permit)
  /\ ((forall tm, In tm (MembershipsOf user_teams u) <-> In tm (MembershipsOf user_teams' u)) ->
      read_decision ctx user_teams r = read_decision ctx user_teams' r).
Proof.
  intros Hu.
  assert (Hmono : forall uts uts',
             (forall tm, In tm (MembershipsOf uts u) -> In tm (MembershipsOf uts' u)) ->
             read_decision ctx uts r = Permit -> read_decision ctx uts' r = Permit).
  { intros uts uts' Hincl. unfold read_decision.
    rewrite !decision_permit, !select_true_iff, !team_exists_true.
    intros [Hs H]. split; [exact Hs|].
    destruct H as [H | [H | (u' & tm & Hu' & Ht & Hin)]]; auto.
    right; right. exists u', tm. repeat split; auto.
    rewrite Hu in Hu'. injection Hu' as <-. auto. }
  split; [apply Hmono|].
  intros Heq.
  destruct (read_decision ctx user_teams r) eqn:E1, (read_decision ctx user_teams' r) eqn:E2;
    try reflexivity.
  - apply (Hmono user_teams user_teams') in E1; [congruence | intros tm; apply Heq].
  - apply (Hmono user_teams' user_teams) in E2; [congruence | intros tm; apply Heq].
Qed.

(** With the larger table [teams2], [u1] still reads the lead of [teamA]. *)
Lemma memberships_decide_read_witness :
  read_decision counselor1 teams2 (lead_of_team (Some "teamA")) = Permit.
Proof.
  destruct (memberships_decide_read counselor1 teams1 teams2 (lead_of_team (Some "teamA"))
              "u1" eq_refl) as [H _].
  apply H.
  - simpl. intros tm [<- | []]. auto.
  - reflexivity.
Defined.

End RlsExtra.

(** ** The edge function *)

Module CreateTaskExtra.
Import CreateTask CreateTaskProps Samples.

Section Handler.

Variable Date_parse : string -> option Z.
Variable timestamptz_in : string -> option Z.

Local Abbreviation handler := (CreateTask.handler Date_parse timestamptz_in).
Local Abbreviation insert_task := (CreateTask.insert_task timestamptz_in).
Local Abbreviation answers := (CreateTask.answers Date_parse timestamptz_in).

(** The handler always answers in one of these ways. *)
Lemma handler_answers req now r db : answers req now r db (handler req now r db).
Proof.
  destruct (String.eqb_spec (method req) "POST") as [Hm | Hm].
  2:{ unfold CreateTask.handler. apply String.eqb_neq in Hm as Hm'. rewrite Hm'.
      now apply MethodNotAllowed. }
  destruct (body req) as [| |p] eqn:Hb.
  { unfold CreateTask.handler. rewrite Hm, Hb. now apply BodyNotJson. }
  { unfold CreateTask.handler. rewrite Hm, Hb. now apply BodyNull. }
  destruct (truthy (application_id p)) as [a|] eqn:Ea;
    [|rewrite (handler_missing _ _ req now r db p Hm Hb) by auto;
      apply (MissingFields _ _ _ _ _ _ p); auto].
  destruct (truthy (task_type p)) as [ty|] eqn:Et;
    [|rewrite (handler_missing _ _ req now r db p Hm Hb) by auto;
      apply (MissingFields _ _ _ _ _ _ p); auto].
  destruct (truthy (due_at p)) as [d|] eqn:Ed;
    [|rewrite (handler_missing _ _ req now r db p Hm Hb) by auto;
      apply (MissingFields _ _ _ _ _ _ p); auto].
  rewrite (handler_present _ _ req now r db p a ty d Hm Hb Ea Et Ed).
  destruct (includes VALID_TYPES ty) eqn:Ein; cbn [negb].
  2:{ apply (InvalidType _ _ _ _ _ _ p a ty d); auto.
      intros Hin. apply includes_In in Hin. congruence. }
  apply includes_In in Ein.
  destruct (Date_parse d) as [t|] eqn:Edate.
  2:{ apply (InvalidDate _ _ _ _ _ _ p a ty d); auto. }
  destruct (Z.leb_spec t now) as [Hle | Hlt].
  { apply (InvalidDate _ _ _ _ _ _ p a ty d); eauto. }
  destruct (select_application_tenant r db a) as [tenant|] eqn:Esel.
  2:{ apply (ApplicationNotFound _ _ _ _ _ _ p a ty d t); auto. }
  destruct (insert_task r db tenant a ty d) as [[data db']|] eqn:Eins.
  - apply (Created _ _ _ _ _ _ p a ty d t tenant data db'); auto.
  - apply (InsertFailed _ _ _ _ _ _ p a ty d t tenant); auto.
Qed.

Ltac handler_cases req now r db :=
  let H := fresh "Hans" in
  let out := fresh "out" in
  let E := fresh "Eout" in
  pose proof (handler_answers req now r db) as H;
  remember (CreateTask.handler Date_parse timestamptz_in req now r db) as out eqn:E;
  destruct H.

Lemma truthy_none x : truthy x = None <-> x = None \/ x = Some "".
Proof.
  unfold truthy. destruct x as [s|]; [|tauto].
  destruct (String.eqb_spec s "") as [->|Hne]; split; intros H.
  - now right.
  - reflexivity.
  - discriminate.
  - destruct H as [H | H]; [discriminate | injection H as ->; contradiction].
Qed.

(** The lookup fails exactly when the store reports an error or the number
    of applications with that id is not one. *)
Lemma select_none_iff r db a :
  select_application_tenant r db a = None <->
  Store.select_error r = true
  \/ List.length (filter (fun x => String.eqb (Store.app_id x) a) (Store.applications db))
     <> 1%nat.
Proof.
  unfold select_application_tenant. destruct (Store.select_error r); [tauto|].
  destruct (filter _ _) as [|x [|y l]]; simpl; split; auto; try discriminate.
  - intros [H | H]; [discriminate | contradiction].
Qed.

(** X4. The handler answers 200 exactly when the method is POST, the body
    is JSON with the three fields non-empty, the type is valid, the runtime
    reads [due_at] as a date after [now], exactly one application has the
    id, and the store takes the row. *)
Theorem handler_success_iff req now r db :
  resp_status (fst (handler req now r db)) = 200%Z <->
  exists p a ty d t tenant,
    method req = "POST" /\ body req = Json p
    /\ application_id p = Some a /\ a <> ""
    /\ task_type p = Some ty /\ In ty VALID_TYPES
    /\ due_at p = Some d /\ d <> ""
    /\ Date_parse d = Some t /\ (now < t)%Z
    /\ select_application_tenant r db a = Some tenant
    /\ insert_task r db tenant a ty d <> None.
Proof.
  split.
  - handler_cases req now r db; simpl; intros H200; try discriminate.
    apply truthy_some in H1, H2, H3.
    exists p, a, ty, d, t, tenant. intuition congruence.
  - intros (p & a & ty & d & t & tenant & Hm & Hb & Ha & Hane & Hty & Hin & Hd & Hdne
            & Hdate & Hlt & Hsel & Hins).
    assert (Hne : ty <> "") by (intros ->; simpl in Hin; intuition discriminate).
    rewrite (handler_present _ _ req now r db p a ty d Hm Hb)
      by (apply truthy_some; auto).
    apply includes_In in Hin. rewrite Hin, Hdate, Hsel. cbn [negb].
    destruct (Z.leb_spec t now); [lia|].
    destruct (insert_task r db tenant a ty d) as [[data db']|]; [reflexivity | congruence].
Qed.

(** X5. The status of an answer is 200, 400, 405 or 500, and it is 405
    exactly for a method other than POST. *)
Theorem handler_status_cases req now r db :
  In (resp_status (fst (handler req now r db))) [200; 400; 405; 500]%Z
  /\ (resp_status (fst (handler req now r db)) = 405%Z <-> method req <> "POST").
Proof.
  handler_cases req now r db; simpl; split; auto 6; split; intros H'; auto;
    try discriminate; contradiction.
Qed.

(** X6. An answer that comes from validation is given without the store:
    unless the answer is 200, "Application not found" or "Failed to create
    task", the handler gives the same answer on every store, and writes
    nothing. *)
Theorem validation_ignores_store req now r db r2 db2 :
  resp_status (fst (handler req now r db)) <> 200%Z ->
  resp_body (fst (handler req now r db)) <> Error "Application not found" ->
  resp_body (fst (handler req now r db)) <> Error "Failed to create task" ->
  handler req now r2 db2 = (fst (handler req now r db), db2).
Proof.
  unfold CreateTask.handler.
  destruct (negb (method req =? "POST")); [reflexivity|].
  destruct (body req) as [| |p]; [reflexivity|reflexivity|].
  destruct (truthy (application_id p)) as [a|]; [|reflexivity].
  destruct (truthy (task_type p)) as [ty|]; [|reflexivity].
  destruct (truthy (due_at p)) as [d|]; [|reflexivity].
  destruct (negb (includes VALID_TYPES ty)); [reflexivity|].
  destruct (Date_parse d) as [due|]; [|reflexivity].
  destruct (due <=? now)%Z; [reflexivity|].
  destruct (select_application_tenant r db a) as [tenant|];
    [|simpl; intros _ H _; now contradiction H].
  destruct (insert_task r db tenant a ty d) as [[data db']|]; simpl.
  - intros H _ _. now contradiction H.
  - intros _ _ H. now contradiction H.
Qed.

(** X7. On a POST request whose body is the JSON value [null] the answer
    is 500 "Internal server error".  On any other JSON body, read at the
    type of the payload, "Missing required fields" is the answer exactly
    when one of the three properties is falsy: undefined, [null], [false],
    [0], or the empty string. *)
Theorem missing_fields_iff req now r db :
  method req = "POST" ->
  (body req = JsonNull ->
   handler req now r db = (respond 500 (Error "Internal server error"), db))
  /\ (forall p, body req = Json p ->
        (handler req now r db = (respond 400 (Error "Missing required fields"), db) <->
         (application_id p = None \/ application_id p = Some "")
         \/ (task_type p = None \/ task_type p = Some "")
         \/ (due_at p = None \/ due_at p = Some ""))).
Proof.
  intros Hm. split.
  { intros Hb. unfold CreateTask.handler. now rewrite Hm, Hb. }
  intros p Hb. rewrite <- !truthy_none. split.
  - destruct (truthy (application_id p)) as [a|] eqn:Ea; auto.
    destruct (truthy (task_type p)) as [ty|] eqn:Et; auto.
    destruct (truthy (due_at p)) as [d|] eqn:Ed; auto.
    rewrite (handler_present _ _ req now r db p a ty d Hm Hb Ea Et Ed).
    destruct (negb (includes VALID_TYPES ty)); [discriminate|].
    destruct (Date_parse d) as [due|]; [|discriminate].
    destruct (due <=? now)%Z; [discriminate|].
    destruct (select_application_tenant r db a); [|discriminate].
    destruct (insert_task r db _ a ty d) as [[data db']|]; discriminate.
  - apply (handler_missing _ _ req now r db p Hm Hb).
Qed.

(** X8. On a request that passes validation, "Application not found" is
    the answer exactly when the store reports an error or the number of
    applications with the id is not one; in particular for an id that no
    application has.  Nothing is written. *)
Theorem application_not_found_iff req now r db p a ty d t :
  method req = "POST" ->
  body req = Json p ->
  truthy (application_id p) = Some a ->
  truthy (task_type p) = Some ty ->
  truthy (due_at p) = Some d ->
  In ty VALID_TYPES ->
  Date_parse d = Some t ->
  (now < t)%Z ->
  (handler req now r db = (respond 400 (Error "Application not found"), db) <->
   Store.select_error r = true
   \/ List.length (filter (fun x => String.eqb (Store.app_id x) a) (Store.applications db))
      <> 1%nat)
  /\ ((forall x, In x (Store.applications db) -> Store.app_id x <> a) ->
      handler req now r db = (respond 400 (Error "Application not found"), db)).
Proof.
  intros Hm Hb Ea Et Ed Hin Hdate Hlt.
  assert (Hiff : handler req now r db = (respond 400 (Error "Application not found"), db) <->
                 select_application_tenant r db a = None).
  { rewrite (handler_present _ _ req now r db p a ty d Hm Hb Ea Et Ed).
    apply includes_In in Hin. rewrite Hin, Hdate. cbn [negb].
    destruct (Z.leb_spec t now); [lia|].
    destruct (select_application_tenant r db a) as [tenant|]; [|tauto].
    destruct (insert_task r db tenant a ty d) as [[data db']|]; split; discriminate. }
  rewrite Hiff, select_none_iff. split; [tauto|].
  intros Hnone. right.
  replace (filter _ _) with (@nil Store.application); [discriminate|].
  symmetry. induction (Store.applications db) as [|x l IH]; [reflexivity|]. simpl.
  destruct (String.eqb_spec (Store.app_id x) a) as [E | E].
  - exfalso. apply (Hnone x); simpl; auto.
  - apply IH. intros y Hy. apply Hnone. simpl; auto.
Qed.

(** X9. The handler only ever appends: the applications and the tasks that
    were there are left as they are, and at most one task is added; an
    added task is open, of a valid type, and carries the application and
    the type of the request; when the answer is 200 a task has been added
    and its id is the one in the answer. *)
Theorem handler_appends_at_most_one req now r db :
  Store.applications (snd (handler req now r db)) = Store.applications db
  /\ exists added,
       Store.tasks (snd (handler req now r db)) = (Store.tasks db ++ added)%list
       /\ (List.length added <= 1)%nat
       /\ (forall task, In task added ->
             Store.status task = "open"
             /\ In (Store.type task) VALID_TYPES
             /\ exists p, body req = Json p
                          /\ application_id p = Some (Store.application_id task)
                          /\ task_type p = Some (Store.type task))
       /\ (resp_status (fst (handler req now r db)) = 200%Z ->
           exists task, added = [task]
                        /\ resp_body (fst (handler req now r db))
                           = Success (Store.id task)).
Proof.
  pose proof (handler_answers req now r db) as Hans.
  remember (handler req now r db) as out eqn:Eout.
  destruct Hans as [ | | | | | | |
                    | p a ty d t tenant data db' Hm Hb Ha Hty Hd Hin Hdate Hlt Hsel Hins];
    simpl;
    try (split; [reflexivity|]; exists []; rewrite app_nil_r;
         split; [reflexivity|]; split; [simpl; lia|];
         split; [intros task [] | intros H200; discriminate H200]).
  apply insert_task_some in Hins.
  destruct Hins as (Hten & Happ & Htype & Hst & Hid & Htasks & Happs).
  split; [exact Happs|]. exists [data].
  apply truthy_some in Ha, Hty. destruct Ha as [Ha _]. destruct Hty as [Hty _].
  split; [exact Htasks|]. split; [simpl; lia|]. split.
  - intros task [<- | []]. split; [exact Hst|]. split; [now rewrite Htype|].
    exists p. rewrite Happ, Htype. auto.
  - intros _. exists data. auto.
Qed.

(** X10. When the request passes validation and the application resolves
    but the store refuses the row, or does not read as a timestamp the
    string that the runtime took for a date, the answer is 500 "Failed to
    create task" and nothing is written. *)
Theorem store_refusal_is_500 req now r db p a ty d t tenant :
  method req = "POST" ->
  body req = Json p ->
  truthy (application_id p) = Some a ->
  truthy (task_type p) = Some ty ->
  truthy (due_at p) = Some d ->
  In ty VALID_TYPES ->
  Date_parse d = Some t ->
  (now < t)%Z ->
  select_application_tenant r db a = Some tenant ->
  Store.write_error r = true \/ timestamptz_in d = None ->
  handler req now r db = (respond 500 (Error "Failed to create task"), db).
Proof.
  intros Hm Hb Ea Et Ed Hin Hdate Hlt Hsel Hbad.
  rewrite (handler_present _ _ req now r db p a ty d Hm Hb Ea Et Ed).
  apply includes_In in Hin. rewrite Hin, Hdate, Hsel. cbn [negb].
  destruct (Z.leb_spec t now); [lia|].
  assert (Hins : insert_task r db tenant a ty d = None).
  { unfold CreateTask.insert_task.
    destruct (Store.write_error r); [reflexivity|].
    destruct (existsb _ _); [reflexivity|].
    destruct Hbad as [Hbad | Hbad]; [discriminate | now rewrite Hbad]. }
  now rewrite Hins.
Qed.

End Handler.

(** The answer to [task_type = "sms"] is the same when the store is down. *)
Lemma validation_ignores_store_witness :
  CreateTask.handler Date_parse timestamptz_in
    (post (Json (payload "app-1" "sms" "2030-01-01T00:00:01.000Z"))) now reply_down dash_db
  = (respond 400 (Error "Invalid task_type. Must be one of: call, email, review"), dash_db).
Proof.
  apply (validation_ignores_store Date_parse timestamptz_in
           (post (Json (payload "app-1" "sms" "2030-01-01T00:00:01.000Z")))
           now reply_ok db0 reply_down dash_db); simpl; discriminate.
Defined.

(** A body without [due_at] is answered "Missing required fields"; the
    body [null] is answered 500. *)
Lemma missing_fields_iff_witness :
  run (post (Json payload_no_due)) db0
  = (respond 400 (Error "Missing required fields"), db0)
  /\ run (post JsonNull) db0 = (respond 500 (Error "Internal server error"), db0).
Proof.
  split.
  - destruct (missing_fields_iff Date_parse timestamptz_in (post (Json payload_no_due))
                now reply_ok db0 eq_refl) as [_ H].
    apply (H payload_no_due eq_refl). right; right; left. reflexivity.
  - destruct (missing_fields_iff Date_parse timestamptz_in (post JsonNull)
                now reply_ok db0 eq_refl) as [H _].
    apply (H eq_refl).
Defined.

(** No application has the id [app-9]. *)
Lemma application_not_found_iff_witness :
  run (post (Json (payload "app-9" "call" "2030-01-01T00:00:01.000Z"))) db0
  = (respond 400 (Error "Application not found"), db0).
Proof.
  destruct (application_not_found_iff Date_parse timestamptz_in
              (post (Json (payload "app-9" "call" "2030-01-01T00:00:01.000Z")))
              now reply_ok db0
              (payload "app-9" "call" "2030-01-01T00:00:01.000Z")
              "app-9" "call" "2030-01-01T00:00:01.000Z" 1893456001000%Z
              eq_refl eq_refl eq_refl eq_refl eq_refl) as [_ H].
  - simpl. auto.
  - reflexivity.
  - unfold now. lia.
  - apply H. simpl. intros x [<- | [<- | []]]; discriminate.
Defined.

(** The store refuses the write of a valid request. *)
Lemma store_refusal_is_500_witness :
  CreateTask.handler Date_parse timestamptz_in
    (post (Json (payload "app-1" "call" "2030-01-01T00:00:01.000Z"))) now reply_readonly db0
  = (respond 500 (Error "Failed to create task"), db0).
Proof.
  apply (store_refusal_is_500 Date_parse timestamptz_in
           (post (Json (payload "app-1" "call" "2030-01-01T00:00:01.000Z")))
           now reply_readonly db0
           (payload "app-1" "call" "2030-01-01T00:00:01.000Z")
           "app-1" "call" "2030-01-01T00:00:01.000Z" 1893456001000%Z "t1"
           eq_refl eq_refl eq_refl eq_refl eq_refl).
  - simpl. auto.
  - reflexivity.
  - unfold now. lia.
  - reflexivity.
  - left. reflexivity.
Defined.

End CreateTaskExtra.

(** ** The dashboard *)

Module DashboardExtra.
Import Dashboard DashboardProps Samples.

Lemma Permutation_filter {A} (f : A -> bool) l l' :
  Permutation l l' -> Permutation (filter f l) (filter f l').
Proof.
  induction 1 as [|x l l' _ IH|x y l|l l' l'' _ IH1 _ IH2]; simpl.
  - constructor.
  - destruct (f x); [now constructor | exact IH].
  - destruct (f x), (f y); try apply Permutation_refl. constructor.
  - now apply Permutation_trans with (filter f l').
Qed.

Lemma filter_comm {A} (f g : A -> bool) l :
  filter f (filter g l) = filter g (filter f l).
Proof.
  induction l as [|x l IH]; simpl; [reflexivity|].
  destruct (f x) eqn:Ef, (g x) eqn:Eg; simpl; rewrite ?Ef, ?Eg, IH; reflexivity.
Qed.

(** A completed row is what the update leaves of it. *)
Lemma set_status_same t : Store.status t = "completed" -> Store.set_status "completed" t = t.
Proof. destruct t as [i te a ty st du]. simpl. intros ->. reflexivity. Qed.

(** The rows of the table after the update, one by one. *)
Lemma In_update_completed id d t :
  In t (Store.tasks (update_completed id d)) <->
  exists t0, In t0 (Store.tasks d)
             /\ t = (if String.eqb (Store.id t0) id
                     then Store.set_status "completed" t0 else t0).
Proof.
  unfold update_completed. cbn [Store.tasks]. rewrite in_map_iff.
  split; intros (t0 & H1 & H2); exists t0; auto.
Qed.

(** Among the rows after the update, those that are due are the due rows
    of before, without the completed task. *)
Lemma due_after_update id s e l :
  filter (due_today s e)
         (map (fun t => if String.eqb (Store.id t) id
                        then Store.set_status "completed" t else t) l)
  = filter (fun task => negb (String.eqb (Store.id task) id)) (filter (due_today s e) l).
Proof.
  induction l as [|t l IH]; [reflexivity|]. cbn [map filter].
  destruct (String.eqb (Store.id t) id) eqn:E.
  - replace (due_today s e (Store.set_status "completed" t)) with false by reflexivity.
    rewrite IH. destruct (due_today s e t); [|reflexivity].
    cbn [filter]. now rewrite E.
  - rewrite IH. destruct (due_today s e t); [|reflexivity].
    cbn [filter]. now rewrite E.
Qed.

Section Page.

Variable LocalTime : Z -> Z.
Variable UTC : Z -> Z.

Local Abbreviation startOfDay := (Dashboard.startOfDay LocalTime UTC).
Local Abbreviation endOfDay := (Dashboard.endOfDay LocalTime UTC).
Local Abbreviation fetchTasks := (Dashboard.fetchTasks LocalTime UTC).
Local Abbreviation markComplete := (Dashboard.markComplete LocalTime UTC).

(** A fetch that succeeds. *)
Lemma fetch_success session now r d st s e :
  startOfDay now = Some s ->
  endOfDay now = Some e ->
  Store.select_error r = false ->
  fetchTasks session now r d st
  = {| tasks := DueSort.sort (filter (due_today s e) (Store.tasks d));
       loading := false; error := None |}.
Proof.
  intros Hs He Hr. unfold Dashboard.fetchTasks, query_tasks, Store.visible_tasks.
  now rewrite Hs, He, Hr.
Qed.

(** A fetch that fails. *)
Lemma fetch_failure session now r d st :
  startOfDay now = None \/ endOfDay now = None \/ Store.select_error r = true ->
  fetchTasks session now r d st = fetch_failed st.
Proof.
  intros H. unfold Dashboard.fetchTasks, query_tasks.
  destruct (startOfDay now) as [s|]; [|reflexivity].
  destruct (endOfDay now) as [e|]; [|reflexivity].
  destruct H as [H | [H | H]]; try discriminate. now rewrite H.
Qed.

Lemma In_sorted l t : In t (DueSort.sort l) <-> In t l.
Proof.
  destruct (sort_by_due l) as [Hp _]. split.
  - apply Permutation_in. now apply Permutation_sym.
  - now apply Permutation_in.
Qed.

(** X11. [fetchTasks] always ends with [loading] off.  When a bound is not
    a valid date or the query fails, the list is kept and the error is
    "Failed to load tasks"; when it succeeds the error is cleared and the
    new state does not depend on the old one. *)
Theorem fetchTasks_outcome session now r d st :
  loading (fetchTasks session now r d st) = false
  /\ (startOfDay now = None \/ endOfDay now = None \/ Store.select_error r = true ->
      fetchTasks session now r d st
      = {| tasks := tasks st; loading := false; error := Some "Failed to load tasks" |})
  /\ (startOfDay now <> None -> endOfDay now <> None -> Store.select_error r = false ->
      error (fetchTasks session now r d st) = None
      /\ forall st', fetchTasks session now r d st' = fetchTasks session now r d st).
Proof.
  split; [|split].
  - unfold Dashboard.fetchTasks, query_tasks.
    destruct (startOfDay now); [|reflexivity].
    destruct (endOfDay now); [|reflexivity].
    destruct (Store.select_error r); reflexivity.
  - intros H. now rewrite fetch_failure.
  - intros Hs He Hr.
    destruct (startOfDay now) as [s|] eqn:Es; [|contradiction].
    destruct (endOfDay now) as [e|] eqn:Ee; [|contradiction].
    split; [|intros st']; now rewrite !(fetch_success _ _ _ _ _ s e).
Qed.

(** X12. In a zone at a fixed offset from UTC the two bounds enclose [now],
    the second is 86399999 ms after the first, and every instant of the
    same local day gives the same bounds. *)
Theorem day_window_fixed_offset off now s e :
  (forall t, LocalTime t = t + off)%Z ->
  (forall t, UTC t = t - off)%Z ->
  startOfDay now = Some s ->
  endOfDay now = Some e ->
  (s <= now <= e)%Z
  /\ e = (s + 86399999)%Z
  /\ (forall now', Day (LocalTime now') = Day (LocalTime now) ->
                   startOfDay now' = Some s /\ endOfDay now' = Some e).
Proof.
  intros HL HU Hs He.
  destruct (bounds_fixed_offset LocalTime UTC off now s e HL HU Hs He) as (Es & Ee & _).
  assert (Hse : e = (s + 86399999)%Z).
  { rewrite Es, Ee, !HU. unfold MakeDate, MakeTime. lia. }
  split; [|split; [exact Hse|]].
  - rewrite Hse, Es, HU, HL. unfold MakeDate, MakeTime, Day, msPerDay.
    pose proof (Z.div_mod (now + off) 86400000 ltac:(lia)) as Hdm.
    pose proof (Z.mod_pos_bound (now + off) 86400000 ltac:(lia)) as Hmod.
    lia.
  - intros now' Hday.
    assert (Hs' : startOfDay now' = Some s).
    { unfold Dashboard.startOfDay, setHours in *. now rewrite Hday. }
    split; [exact Hs'|].
    unfold Dashboard.endOfDay in *. rewrite Hs'. now rewrite Hs in He.
Qed.

(** X13. When the store refuses the update, [markComplete] alerts "Failed
    to update task" and leaves the table as it was.  If the fetch that
    follows succeeds, the page is what a fresh fetch gives, so a task that
    is still due is back in the list; if that fetch fails too, the task
    stays removed from the list and the page carries the error. *)
Theorem markComplete_failure_reverts session id r now' r' d st :
  Store.write_error r = true ->
  let o := markComplete session id r now' r' d st in
  alert o = Some "Failed to update task"
  /\ db o = d
  /\ (forall s e, startOfDay now' = Some s -> endOfDay now' = Some e ->
                  Store.select_error r' = false ->
                  ui o = fetchTasks session now' r' d st
                  /\ forall t, In t (Store.tasks d) -> due_today s e t = true ->
                               In t (tasks (ui o)))
  /\ (startOfDay now' = None \/ endOfDay now' = None \/ Store.select_error r' = true ->
      ui o = {| tasks := filter (fun task => negb (String.eqb (Store.id task) id)) (tasks st);
                loading := false; error := Some "Failed to load tasks" |}).
Proof.
  intros Hr o. subst o. unfold Dashboard.markComplete. rewrite Hr. cbn [alert db ui].
  split; [reflexivity|]. split; [reflexivity|]. split.
  - intros s e Hs He Hr'.
    rewrite (fetch_success session now' r' d st s e Hs He Hr').
    rewrite (fetch_success _ _ _ _ _ s e Hs He Hr').
    split; [reflexivity|]. intros t Hin Hdue. cbn [tasks].
    apply In_sorted, filter_In. auto.
  - intros H. now rewrite fetch_failure.
Qed.

(** X14. When the store takes the update, [markComplete] raises no alert,
    removes from the list on the page exactly the rows with that id, and
    changes in the table only the status of the rows with that id: every
    other column of every row, and every row with another id, is as
    before. *)
Theorem markComplete_success_effect session id r now' r' d st :
  Store.write_error r = false ->
  let o := markComplete session id r now' r' d st in
  alert o = None
  /\ ui o = {| tasks := filter (fun task => negb (String.eqb (Store.id task) id)) (tasks st);
               loading := loading st; error := error st |}
  /\ (forall t, In t (tasks (ui o)) <-> In t (tasks st) /\ Store.id t <> id)
  /\ Store.applications (db o) = Store.applications d
  /\ map Store.id (Store.tasks (db o)) = map Store.id (Store.tasks d)
  /\ map Store.tenant_id (Store.tasks (db o)) = map Store.tenant_id (Store.tasks d)
  /\ map Store.application_id (Store.tasks (db o)) = map Store.application_id (Store.tasks d)
  /\ map Store.type (Store.tasks (db o)) = map Store.type (Store.tasks d)
  /\ map Store.due_at (Store.tasks (db o)) = map Store.due_at (Store.tasks d)
  /\ (forall n t, nth_error (Store.tasks d) n = Some t -> Store.id t <> id ->
                  nth_error (Store.tasks (db o)) n = Some t).
Proof.
  intros Hr o. subst o. unfold Dashboard.markComplete. rewrite Hr. cbn [alert db ui tasks].
  split; [reflexivity|]. split; [reflexivity|]. split.
  { intros t. rewrite filter_In, negb_true_iff, String.eqb_neq. tauto. }
  split; [reflexivity|].
  unfold update_completed. cbn [Store.tasks]. rewrite !map_map.
  repeat split; try (apply map_ext; intros t; destruct (String.eqb (Store.id t) id); reflexivity).
  intros n t Hn Hne. rewrite nth_error_map, Hn. cbn.
  apply String.eqb_neq in Hne. now rewrite Hne.
Qed.

(** X15. Completing an id that no row has is not an error: when the store
    takes the update there is no alert and the table is unchanged. *)
Theorem markComplete_unknown_id session id r now' r' d st :
  Store.write_error r = false ->
  (forall t, In t (Store.tasks d) -> Store.id t <> id) ->
  let o := markComplete session id r now' r' d st in
  alert o = None /\ db o = d.
Proof.
  intros Hr Hnone o. subst o. unfold Dashboard.markComplete. rewrite Hr. cbn [alert db].
  split; [reflexivity|]. unfold update_completed. destruct d as [apps ts]. cbn in *.
  f_equal. rewrite <- (map_id ts) at 2. apply map_ext_in. intros t Hin.
  specialize (Hnone t Hin). apply String.eqb_neq in Hnone. now rewrite Hnone.
Qed.

(** X16. The optimistic update agrees with the store: when the list on the
    page came from a fetch and the update succeeds, fetching again at the
    same time gives the list that is already on the page, up to the order
    of tasks due at the same instant. *)
Theorem optimistic_matches_refetch session id now rf r now' r' d st0 s e :
  startOfDay now = Some s ->
  endOfDay now = Some e ->
  Store.select_error rf = false ->
  Store.write_error r = false ->
  let st := fetchTasks session now rf d st0 in
  let o := markComplete session id r now' r' d st in
  Permutation (tasks (fetchTasks session now rf (db o) (ui o))) (tasks (ui o)).
Proof.
  intros Hs He Hrf Hr st o. subst o st. unfold Dashboard.markComplete. rewrite Hr.
  cbn [db ui]. rewrite !(fetch_success _ _ _ _ _ s e Hs He Hrf). cbn [tasks].
  unfold update_completed. cbn [Store.tasks]. rewrite due_after_update.
  apply Permutation_trans
    with (filter (fun task => negb (String.eqb (Store.id task) id))
                 (filter (due_today s e) (Store.tasks d))).
  - apply Permutation_sym, DueSort.Permuted_sort.
  - apply Permutation_filter, DueSort.Permuted_sort.
Qed.

(** X17. Once [markComplete] has succeeded for an id, no later fetch that
    succeeds lists a task with that id, whatever the time of the fetch. *)
Theorem completed_not_listed_again session id r now' r' d st now2 r2 st2 s e :
  Store.write_error r = false ->
  startOfDay now2 = Some s ->
  endOfDay now2 = Some e ->
  Store.select_error r2 = false ->
  let o := markComplete session id r now' r' d st in
  forall t, In t (tasks (fetchTasks session now2 r2 (db o) st2)) -> Store.id t <> id.
Proof.
  intros Hr Hs He Hr2 o t. subst o. unfold Dashboard.markComplete. rewrite Hr. cbn [db].
  rewrite (fetch_success _ _ _ _ _ s e Hs He Hr2). cbn [tasks].
  rewrite In_sorted, filter_In, In_update_completed, due_today_iff.
  intros [(t0 & Hin & Ht) (Hst & _)] Hid.
  destruct (String.eqb_spec (Store.id t0) id) as [E | E]; subst t.
  - now apply Hst.
  - contradiction.
Qed.

(** X18. Completions commute: completing two ids in either order gives the
    same table and the same page. *)
Theorem markComplete_commute session a b ra rb now' r' d st :
  Store.write_error ra = false ->
  Store.write_error rb = false ->
  let oa := markComplete session a ra now' r' d st in
  let oab := markComplete session b rb now' r' (db oa) (ui oa) in
  let ob := markComplete session b rb now' r' d st in
  let oba := markComplete session a ra now' r' (db ob) (ui ob) in
  db oab = db oba /\ ui oab = ui oba.
Proof.
  intros Ha Hb oa oab ob oba. subst oab oba oa ob. unfold Dashboard.markComplete.
  rewrite Ha, Hb. cbn [db ui tasks loading error]. split.
  - unfold update_completed. cbn [Store.applications Store.tasks]. f_equal.
    rewrite !map_map. apply map_ext. intros t.
    destruct (String.eqb (Store.id t) a) eqn:Ea, (String.eqb (Store.id t) b) eqn:Eb;
      cbn; rewrite ?Ea, ?Eb; reflexivity.
  - f_equal. apply filter_comm.
Qed.

Variable toLocaleTimeString : Z -> string.

Local Abbreviation render := (Dashboard.render toLocaleTimeString).

(** X19. What the page shows after a fetch is never the loading line: it is
    the error line, with the list hidden, when the fetch failed, and
    otherwise the heading with the note "No tasks due today" when nothing
    is due, or with a table of one row per listed task. *)
Theorem render_after_fetch session now r d st :
  (startOfDay now = None \/ endOfDay now = None \/ Store.select_error r = true ->
   render (fetchTasks session now r d st) = ErrorView "Failed to load tasks")
  /\ (forall s e, startOfDay now = Some s -> endOfDay now = Some e ->
        Store.select_error r = false ->
        let listed := tasks (fetchTasks session now r d st) in
        (listed = [] ->
         render (fetchTasks session now r d st)
         = MainView "Today's Tasks" (Some "No tasks due today 🎉") None)
        /\ (listed <> [] ->
            render (fetchTasks session now r d st)
            = MainView "Today's Tasks" None
                (Some (["Type"; "Application ID"; "Due At"; "Status"; "Action"],
                       map (render_row toLocaleTimeString) listed)))).
Proof.
  split.
  - intros H. now rewrite fetch_failure.
  - intros s e Hs He Hr listed. subst listed.
    rewrite (fetch_success _ _ _ _ _ s e Hs He Hr). cbn [tasks].
    unfold Dashboard.render, main_view. cbn [loading error tasks].
    destruct (DueSort.sort _) as [|t l]; split; intros H; try reflexivity; congruence.
Qed.

(** X20. Each row of the table stands for one listed task, in order, and
    its button completes that task; after a successful click on a page that
    shows the table, the rows are those of before without the rows of the
    completed id. *)
Theorem click_removes_row session id r now' r' d st :
  loading st = false ->
  error st = None ->
  map key (view_rows (render st)) = map Store.id (tasks st)
  /\ map onClick (view_rows (render st)) = map Store.id (tasks st)
  /\ (Store.write_error r = false ->
      view_rows (render (ui (markComplete session id r now' r' d st)))
      = filter (fun row => negb (String.eqb (key row) id)) (view_rows (render st))).
Proof.
  intros Hl He.
  assert (Hrows : forall st', loading st' = false -> error st' = None ->
                              view_rows (render st')
                              = map (render_row toLocaleTimeString) (tasks st')).
  { intros st' Hl' He'. unfold Dashboard.render, main_view. rewrite Hl', He'.
    destruct (tasks st'); reflexivity. }
  rewrite (Hrows st Hl He), !map_map. repeat split.
  intros Hr. unfold Dashboard.markComplete. rewrite Hr. cbn [ui].
  rewrite Hrows by assumption. cbn [tasks].
  induction (tasks st) as [|t l IH]; [reflexivity|]. cbn [filter map key render_row].
  destruct (String.eqb (Store.id t) id); cbn [negb map]; now rewrite IH.
Qed.

End Page.

(** The page of the sample day, once mounted. *)
Lemma fetchTasks_outcome_witness :
  Dashboard.mount utc utc counselor1 noon reply_ok dash_db
  = {| tasks := [task_b; task_a; task_d]; loading := false; error := None |}
  /\ Dashboard.mount utc utc counselor1 noon reply_down dash_db
     = {| tasks := []; loading := false; error := Some "Failed to load tasks" |}.
Proof.
  destruct (fetchTasks_outcome utc utc counselor1 noon reply_down dash_db initial)
    as (_ & Hfail & _).
  split; [reflexivity|]. apply Hfail. right; right. reflexivity.
Defined.

(** Noon lies between the bounds of its day. *)
Lemma day_window_fixed_offset_witness :
  (1893456000000 <= noon <= 1893542399999)%Z.
Proof.
  apply (day_window_fixed_offset utc utc 0%Z noon 1893456000000%Z 1893542399999%Z
           (fun t => eq_sym (Z.add_0_r t)) (fun t => eq_sym (Z.sub_0_r t))
           eq_refl eq_refl).
Defined.

(** The store refuses the update of [task_a]; the fetch that follows puts
    it back on the page. *)
Lemma markComplete_failure_reverts_witness :
  In task_a (tasks (ui (Dashboard.markComplete utc utc counselor1 "a" reply_readonly
                          noon reply_ok dash_db st0))).
Proof.
  destruct (markComplete_failure_reverts utc utc counselor1 "a" reply_readonly
              noon reply_ok dash_db st0 eq_refl) as (_ & _ & H & _).
  destruct (H 1893456000000%Z 1893542399999%Z eq_refl eq_refl eq_refl) as [_ Hin].
  apply Hin; [simpl; auto | reflexivity].
Defined.

(** Completing [task_a] keeps the ids of the table. *)
Lemma markComplete_success_effect_witness :
  map Store.id (Store.tasks (db (Dashboard.markComplete utc utc counselor1 "a" reply_ok
                                   noon reply_ok dash_db st0)))
  = ["a"; "b"; "c"; "d"; "e"].
Proof.
  destruct (markComplete_success_effect utc utc counselor1 "a" reply_ok
              noon reply_ok dash_db st0 eq_refl) as (_ & _ & _ & _ & H & _).
  exact H.
Defined.

(** No task has the id [z]. *)
Lemma markComplete_unknown_id_witness :
  let o := Dashboard.markComplete utc utc counselor1 "z" reply_ok noon reply_ok dash_db st0 in
  alert o = None /\ db o = dash_db.
Proof.
  apply (markComplete_unknown_id utc utc counselor1 "z" reply_ok noon reply_ok dash_db st0
           eq_refl).
  simpl. intros t [<- | [<- | [<- | [<- | [<- | []]]]]]; discriminate.
Defined.

Lemma optimistic_matches_refetch_witness :
  let st := Dashboard.fetchTasks utc utc counselor1 noon reply_ok dash_db st0 in
  let o := Dashboard.markComplete utc utc counselor1 "a" reply_ok noon reply_ok dash_db st in
  Permutation (tasks (Dashboard.fetchTasks utc utc counselor1 noon reply_ok (db o) (ui o)))
              (tasks (ui o)).
Proof.
  apply (optimistic_matches_refetch utc utc counselor1 "a" noon reply_ok reply_ok
           noon reply_ok dash_db st0 1893456000000%Z 1893542399999%Z
           eq_refl eq_refl eq_refl eq_refl).
Defined.

Lemma completed_not_listed_again_witness :
  let o := Dashboard.markComplete utc utc counselor1 "a" reply_ok noon reply_ok dash_db st0 in
  ~ In "a" (map Store.id
              (tasks (Dashboard.fetchTasks utc utc counselor1 noon reply_ok (db o) st0))).
Proof.
  intros o H. apply in_map_iff in H. destruct H as (t & Hid & Hin).
  apply (completed_not_listed_again utc utc counselor1 "a" reply_ok noon reply_ok dash_db st0
           noon reply_ok st0 1893456000000%Z 1893542399999%Z eq_refl eq_refl eq_refl eq_refl)
    in Hin.
  contradiction.
Defined.

Lemma markComplete_commute_witness :
  let oa := Dashboard.markComplete utc utc counselor1 "a" reply_ok noon reply_ok dash_db st0 in
  let oab := Dashboard.markComplete utc utc counselor1 "b" reply_ok noon reply_ok
               (db oa) (ui oa) in
  let ob := Dashboard.markComplete utc utc counselor1 "b" reply_ok noon reply_ok dash_db st0 in
  let oba := Dashboard.markComplete utc utc counselor1 "a" reply_ok noon reply_ok
               (db ob) (ui ob) in
  db oab = db oba /\ ui oab = ui oba.
Proof.
  apply (markComplete_commute utc utc counselor1 "a" "b" reply_ok reply_ok noon reply_ok
           dash_db st0 eq_refl eq_refl).
Defined.

(** The page of the sample day: a table of three rows; when the store is
    down, the error line. *)
Lemma render_after_fetch_witness :
  map key (view_rows (Dashboard.render Samples.toLocaleTimeString
                        (Dashboard.mount utc utc counselor1 noon reply_ok dash_db)))
  = ["b"; "a"; "d"]
  /\ Dashboard.render Samples.toLocaleTimeString
       (Dashboard.mount utc utc counselor1 noon reply_down dash_db)
     = ErrorView "Failed to load tasks".
Proof.
  destruct (render_after_fetch utc utc Samples.toLocaleTimeString counselor1 noon
              reply_down dash_db initial) as [Hfail _].
  destruct (render_after_fetch utc utc Samples.toLocaleTimeString counselor1 noon
              reply_ok dash_db initial) as [_ Hok].
  destruct (Hok 1893456000000%Z 1893542399999%Z eq_refl eq_refl eq_refl) as [_ Htable].
  split.
  - unfold Dashboard.mount. rewrite Htable; [reflexivity | discriminate].
  - apply Hfail. right; right. reflexivity.
Defined.

(** A click on the button of [task_a] leaves the rows of [task_b] and
    [task_d]. *)
Lemma click_removes_row_witness :
  map key (view_rows
             (Dashboard.render Samples.toLocaleTimeString
                (ui (Dashboard.markComplete utc utc counselor1 "a" reply_ok noon reply_ok
                       dash_db (Dashboard.mount utc utc counselor1 noon reply_ok dash_db)))))
  = ["b"; "d"].
Proof.
  destruct (click_removes_row utc utc Samples.toLocaleTimeString counselor1 "a" reply_ok
              noon reply_ok dash_db
              (Dashboard.mount utc utc counselor1 noon reply_ok dash_db) eq_refl eq_refl)
    as (_ & _ & H).
  rewrite (H eq_refl). reflexivity.
Defined.

End DashboardExtra.

(** ** The life of a task across the two writers *)

Module LifecycleExtra.
Import CreateTask CreateTaskProps CreateTaskExtra Dashboard DashboardProps DashboardExtra Samples.

Section Writers.

Variable Date_parse : string -> option Z.
Variable timestamptz_in : string -> option Z.
Variable LocalTime : Z -> Z.
Variable UTC : Z -> Z.

Local Abbreviation handler := (CreateTask.handler Date_parse timestamptz_in).
Local Abbreviation markComplete := (Dashboard.markComplete LocalTime UTC).

(** The tasks after the handler: those of before, and at most one more,
    which is open. *)
Lemma handler_tasks req now r d :
  Store.tasks (snd (handler req now r d)) = Store.tasks d
  \/ exists t, Store.tasks (snd (handler req now r d)) = (Store.tasks d ++ [t])%list
               /\ Store.status t = "open".
Proof.
  pose proof (handler_answers Date_parse timestamptz_in req now r d) as H.
  remember (handler req now r d) as out. destruct H; simpl; auto.
  right. exists data.
  match goal with
  | Hins : CreateTask.insert_task _ _ _ _ _ _ _ = Some _ |- _ =>
      apply insert_task_some in Hins; destruct Hins as (_ & _ & _ & Hst & _ & Ht & _)
  end.
  auto.
Qed.

(** X21. The two writers keep every status within open and completed: if
    the table has no other status, it has none after the handler, nor
    after [markComplete], whether the store takes the write or not. *)
Theorem statuses_stay_known req now r d session id ru now' r' st :
  Forall Store.known_status (Store.tasks d) ->
  Forall Store.known_status (Store.tasks (snd (handler req now r d)))
  /\ Forall Store.known_status (Store.tasks (db (markComplete session id ru now' r' d st))).
Proof.
  intros Hd. split.
  - destruct (handler_tasks req now r d) as [-> | (t & -> & Hst)]; [exact Hd|].
    apply Forall_app. split; [exact Hd|]. constructor; [now left | constructor].
  - unfold Dashboard.markComplete. destruct (Store.write_error ru); cbn [db]; [exact Hd|].
    unfold update_completed. cbn [Store.tasks]. apply Forall_map.
    eapply Forall_impl; [|exact Hd]. intros t Ht.
    destruct (String.eqb (Store.id t) id); [now right | exact Ht].
Qed.

(** X22. Completed is final: a completed row of the table is still there,
    unchanged, after the handler and after [markComplete] of any id. *)
Theorem completed_is_final req now r d session id ru now' r' st t :
  In t (Store.tasks d) ->
  Store.status t = "completed" ->
  In t (Store.tasks (snd (handler req now r d)))
  /\ In t (Store.tasks (db (markComplete session id ru now' r' d st))).
Proof.
  intros Hin Hst. split.
  - destruct (handler_tasks req now r d) as [-> | (t' & -> & _)]; [exact Hin|].
    apply in_or_app. now left.
  - unfold Dashboard.markComplete. destruct (Store.write_error ru); cbn [db]; [exact Hin|].
    apply In_update_completed. exists t. split; [exact Hin|].
    destruct (String.eqb (Store.id t) id); [|reflexivity].
    symmetry. now apply set_status_same.
Qed.

(** X23. A task created through the edge function shows on the dashboard
    of its due day: when the handler answers 200 and a later fetch succeeds
    with bounds around the stored [due_at], the fetched list has the open
    task whose id the handler returned. *)
Theorem created_task_is_listed req now r d resp d' p due_text due
        session now2 r2 st2 s e :
  handler req now r d = (resp, d') ->
  resp_status resp = 200%Z ->
  body req = Json p ->
  due_at p = Some due_text ->
  timestamptz_in due_text = Some due ->
  Dashboard.startOfDay LocalTime UTC now2 = Some s ->
  Dashboard.endOfDay LocalTime UTC now2 = Some e ->
  Store.select_error r2 = false ->
  (Store.timestamptz_of_ms s <= due <= Store.timestamptz_of_ms e)%Z ->
  exists t,
    In t (tasks (Dashboard.fetchTasks LocalTime UTC session now2 r2 d' st2))
    /\ resp_body resp = Success (Store.id t)
    /\ Store.status t = "open"
    /\ Store.due_at t = due.
Proof.
  intros Hh H200 Hb Hd Hdue Hs He Hr2 Hwin.
  pose proof (handler_answers Date_parse timestamptz_in req now r d) as H.
  rewrite Hh in H. inversion H; subst; try discriminate.
  match goal with
  | Hins : CreateTask.insert_task _ _ _ _ _ _ _ = Some _ |- _ =>
      pose proof Hins as Hshape; apply insert_task_some in Hshape;
      destruct Hshape as (_ & _ & _ & Hst & _ & Ht & _);
      unfold CreateTask.insert_task in Hins
  end.
  match goal with
  | Hb' : body req = Json ?q |- _ => rewrite Hb in Hb'; injection Hb' as <-
  end.
  match goal with
  | Ht' : truthy (due_at p) = Some ?x |- _ =>
      apply truthy_some in Ht'; destruct Ht' as [Ht' _];
      rewrite Hd in Ht'; injection Ht' as <-
  end.
  assert (Hdue_t : Store.due_at data = due).
  { destruct (Store.write_error r); [discriminate|].
    destruct (existsb _ _); [discriminate|].
    rewrite Hdue in *.
    match goal with Hins : Some _ = Some _ |- _ => injection Hins as <- _ end.
    reflexivity. }
  exists data. rewrite (fetch_success LocalTime UTC session now2 r2 d' st2 s e Hs He Hr2).
  cbn [tasks]. repeat split; auto.
  apply In_sorted, filter_In. split.
  - rewrite Ht. apply in_or_app. right. now left.
  - apply due_today_iff. rewrite Hst, Hdue_t. split; [discriminate | exact Hwin].
Qed.

End Writers.

Lemma statuses_stay_known_witness :
  Forall Store.known_status (Store.tasks (snd (run (post (Json (payload "app-1" "call"
                                                       "2030-01-01T00:00:01.000Z")))
                                           dash_db))).
Proof.
  apply (statuses_stay_known Date_parse timestamptz_in utc utc
           (post (Json (payload "app-1" "call" "2030-01-01T00:00:01.000Z")))
           now reply_ok dash_db counselor1 "a" reply_ok noon reply_ok st0).
  repeat (apply Forall_cons; [unfold Store.known_status; simpl; auto|]). apply Forall_nil.
Defined.

(** [task_c] is completed; completing it again, or any other id, leaves
    it in the table. *)
Lemma completed_is_final_witness :
  In task_c (Store.tasks (db (Dashboard.markComplete utc utc counselor1 "c" reply_ok
                                noon reply_ok dash_db st0))).
Proof.
  apply (completed_is_final Date_parse timestamptz_in utc utc
           (post NotJson) now reply_ok dash_db counselor1 "c" reply_ok noon reply_ok st0
           task_c).
  - simpl. auto.
  - reflexivity.
Defined.

(** The task created one second into 2030 is on the page at noon. *)
Lemma created_task_is_listed_witness :
  exists t,
    In t (tasks (Dashboard.fetchTasks utc utc counselor1 noon reply_ok
                   (db_with (task1 "t1" "app-1")) st0))
    /\ Store.id t = "task-1".
Proof.
  destruct (created_task_is_listed Date_parse timestamptz_in utc utc
              (post (Json (payload "app-1" "call" "2030-01-01T00:00:01.000Z")))
              now reply_ok db0
              (respond 200 (Success "task-1")) (db_with (task1 "t1" "app-1"))
              (payload "app-1" "call" "2030-01-01T00:00:01.000Z")
              "2030-01-01T00:00:01.000Z" 1893456001000000%Z
              counselor1 noon reply_ok st0 1893456000000%Z 1893542399999%Z
              eq_refl eq_refl eq_refl eq_refl eq_refl eq_refl eq_refl eq_refl)
    as (t & Hin & Hid & _).
  - unfold Store.timestamptz_of_ms. lia.
  - exists t. split; [exact Hin|]. simpl in Hid. now injection Hid as <-.
Defined.

End LifecycleExtra.
